(** * weather-mcp: the request executor and the forecast formatter

    A shallow embedding of [src/weather.py]: [make_gc_request] (one GET per
    attempt, bounded retries, exponential backoff), [format_forecast] and
    [get_forecast] (coordinate validation, payload navigation, rendering).

    Python values are the ones [json] decoding and a tool call can deliver.
    Exceptions are an explicit result type; the network is an oracle that
    gives the way each attempt ends; requests and sleeps are recorded in an
    event trace, in the order they happen. Logging is left out. *)

From Stdlib Require Import ZArith List String Ascii Bool QArith Lia.
From Stdlib Require Import DecimalString.
From Stdlib Require Import Floats.SpecFloat.
From Equations Require Import Equations.
Import ListNotations.

Set Warnings "-register-all".

Local Open Scope string_scope.
Local Open Scope Z_scope.

(** ** Python values *)

(** A [dict] keeps its insertion order and has string keys here (JSON
    objects); it is an association list read from the front. A [float] is
    an IEEE 754 datum: a zero, an infinity, a NaN or [(-1)^s * m * 2^e]. *)
Inductive value : Type :=
| VNone
| VBool (b : bool)
| VInt (z : Z)
| VFloat (f : spec_float)
| VStr (s : string)
| VList (l : list value)
| VDict (d : list (string * value)).

(** Exceptions, all of them subclasses of [Exception]; each carries the
    text that [str(e)] gives. *)
Inductive exn : Type :=
| WeatherAPIError (msg : string)
| KeyError (msg : string)
| AttributeError (msg : string)
| TypeError (msg : string)
| IndexError (msg : string)
| OverflowError (msg : string)
| OtherException (msg : string).

Inductive result (A : Type) : Type :=
| Ret (a : A)
| Raise (e : exn).
Arguments Ret {A} a.
Arguments Raise {A} e.

Definition bind {A B : Type} (c : result A) (k : A -> result B) : result B :=
  match c with
  | Ret a => k a
  | Raise e => Raise e
  end.

Notation "x <- c ;; k" := (bind c (fun x => k))
  (at level 61, c at next level, right associativity).

Definition exn_str (e : exn) : string :=
  match e with
  | WeatherAPIError msg | KeyError msg | AttributeError msg
  | TypeError msg | IndexError msg | OverflowError msg
  | OtherException msg => msg
  end.

(** The line feed, and [str.join]. *)
Definition LF : string := String "010"%char EmptyString.

Fixpoint join (sep : string) (parts : list string) : string :=
  match parts with
  | [] => ""
  | [p] => p
  | p :: rest => p ++ sep ++ join sep rest
  end.

(** [str(n)] for an [int]. *)
Definition str_int (z : Z) : string := NilZero.string_of_int (Z.to_int z).

Definition type_name (v : value) : string :=
  match v with
  | VNone => "NoneType"
  | VBool _ => "bool"
  | VInt _ => "int"
  | VFloat _ => "float"
  | VStr _ => "str"
  | VList _ => "list"
  | VDict _ => "dict"
  end.

(** Truth value testing, as [not v] and [if v] use it. *)
Definition truthy (v : value) : bool :=
  match v with
  | VNone => false
  | VBool b => b
  | VInt z => negb (z =? 0)
  | VFloat (S754_zero _) => false
  | VFloat _ => true
  | VStr s => negb (String.eqb s "")
  | VList l => match l with [] => false | _ => true end
  | VDict d => match d with [] => false | _ => true end
  end.

(** [isinstance(v, (int, float))]; [bool] is a subclass of [int]. *)
Definition is_number (v : value) : bool :=
  match v with
  | VBool _ | VInt _ | VFloat _ => true
  | _ => false
  end.

Definition is_list (v : value) : bool :=
  match v with
  | VList _ => true
  | _ => false
  end.

(** Comparison of a float with an [int], exact as in Python: a NaN is
    neither below nor above anything. *)
Definition float_num (s : bool) (m : positive) : Z :=
  if s then Z.neg m else Z.pos m.

Definition float_lt_int (f : spec_float) (n : Z) : bool :=
  match f with
  | S754_nan => false
  | S754_infinity s => s
  | S754_zero _ => 0 <? n
  | S754_finite s m e =>
      if 0 <=? e then float_num s m * 2 ^ e <? n
      else float_num s m <? n * 2 ^ (- e)
  end.

Definition float_gt_int (f : spec_float) (n : Z) : bool :=
  match f with
  | S754_nan => false
  | S754_infinity s => negb s
  | S754_zero _ => n <? 0
  | S754_finite s m e =>
      if 0 <=? e then n <? float_num s m * 2 ^ e
      else n * 2 ^ (- e) <? float_num s m
  end.

(** [v < n] and [v > n] for a number [v] and an [int] literal [n]. They are
    used on numbers only (the [isinstance] test comes first). *)
Definition py_lt (v : value) (n : Z) : bool :=
  match v with
  | VBool b => Z.b2z b <? n
  | VInt z => z <? n
  | VFloat f => float_lt_int f n
  | _ => false
  end.

Definition py_gt (v : value) (n : Z) : bool :=
  match v with
  | VBool b => n <? Z.b2z b
  | VInt z => n <? z
  | VFloat f => float_gt_int f n
  | _ => false
  end.

(** [v == s] for a string literal [s]. *)
Definition eq_str (v : value) (s : string) : bool :=
  match v with
  | VStr t => String.eqb t s
  | _ => false
  end.

(** Lookup in a [dict], and [dict.get(key, default)]. *)
Fixpoint dict_find (d : list (string * value)) (key : string) : option value :=
  match d with
  | [] => None
  | (k, v) :: rest => if String.eqb k key then Some v else dict_find rest key
  end.

Definition dict_get (d : list (string * value)) (key : string) (default : value)
  : value :=
  match dict_find d key with
  | Some v => v
  | None => default
  end.

(** [v.get(key, default)]: only a [dict] has the method. *)
Definition py_get (v : value) (key : string) (default : value) : result value :=
  match v with
  | VDict d => Ret (dict_get d key default)
  | _ => Raise (AttributeError
                  ("'" ++ type_name v ++ "' object has no attribute 'get'"))
  end.

(** The items a [for] loop visits. *)
Fixpoint chars (s : string) : list value :=
  match s with
  | EmptyString => []
  | String c rest => VStr (String c EmptyString) :: chars rest
  end.

Definition py_iter (v : value) : result (list value) :=
  match v with
  | VList l => Ret l
  | VDict d => Ret (map (fun kv => VStr (fst kv)) d)
  | VStr s => Ret (chars s)
  | _ => Raise (TypeError ("'" ++ type_name v ++ "' object is not iterable"))
  end.

(** [len(v)]. *)
Definition py_len (v : value) : result Z :=
  match v with
  | VList l => Ret (Z.of_nat (List.length l))
  | VDict d => Ret (Z.of_nat (List.length d))
  | VStr s => Ret (Z.of_nat (String.length s))
  | _ => Raise (TypeError ("object of type '" ++ type_name v ++ "' has no len()"))
  end.

(** [v[0]]. A JSON object has string keys only, so the key [0] is never in
    a [dict]. *)
Definition py_item0 (v : value) : result value :=
  match v with
  | VList (x :: _) => Ret x
  | VList [] => Raise (IndexError "list index out of range")
  | VStr (String c _) => Ret (VStr (String c EmptyString))
  | VStr EmptyString => Raise (IndexError "string index out of range")
  | VDict _ => Raise (KeyError "0")
  | _ => Raise (TypeError ("'" ++ type_name v ++ "' object is not subscriptable"))
  end.

(** [try: body except ...: handler]. *)
Definition try_except {A : Type} (body : result A) (handler : exn -> result A)
  : result A :=
  match body with
  | Ret a => Ret a
  | Raise e => handler e
  end.

(** ** Constants *)

Definition GC_API_BASE : string := "https://weather.gc.ca".
Definition MAX_RETRIES : Z := 2.
Definition RETRY_DELAY : Q := 1.

(** ** The request executor *)

(** The way one attempt's [try] body ends: the decoded body, or one of the
    three exception classes the handlers tell apart. *)
Inductive attempt_outcome : Type :=
| Success (body : value)
| HTTPStatusError (status_code : Z) (msg : string)
| RequestError (msg : string)
| UnexpectedError (msg : string).

Inductive event : Type :=
| Get (url : string)
| Sleep (seconds : Q).

(** How the [try] statement of one iteration completes: by [return], by
    [raise], or by falling through with [last_error] set. *)
Inductive completion : Type :=
| Returned (v : value)
| Raised (e : exn)
| FellThrough (last_error : string).

Definition client_error (status_code : Z) : bool :=
  (400 <=? status_code) && (status_code <? 500) && negb (status_code =? 429).

Definition try_attempt (o : attempt_outcome) : completion :=
  match o with
  | Success body => Returned body
  | HTTPStatusError status_code msg =>
      if client_error status_code
      then Raised (WeatherAPIError ("Client error: " ++ msg))
      else FellThrough msg
  | RequestError msg => FellThrough msg
  | UnexpectedError msg => Raised (WeatherAPIError ("Unexpected error: " ++ msg))
  end.

(** The seconds of the backoff before the attempt with index [attempt]
    (at least 1): 1.0 times a power of two, which has no rounding. *)
Definition backoff_seconds (attempt : Z) : Q :=
  (RETRY_DELAY * inject_Z (2 ^ (attempt - 1)))%Q.

(** [RETRY_DELAY * (2 ** (attempt - 1))]. The power is an [int]; the product
    with the float 1.0 converts it to a float first, and an [int] of
    [2 ** 1024] or more is too large for a float: the conversion raises
    [OverflowError]. The loop computes it for [attempt >= 1] only. *)
Definition wait_time (attempt : Z) : result Q :=
  if 2 ^ (attempt - 1) <? 2 ^ 1024
  then Ret (backoff_seconds attempt)
  else Raise (OverflowError "int too large to convert to float").

Definition str_last_error (last_error : option string) : string :=
  match last_error with
  | None => "None"
  | Some msg => msg
  end.

(** The [while attempt <= retries] loop. [net attempt] is the way the
    request of that attempt ends. The backoff is computed after the [try]
    statement, so an exception of [wait_time] leaves the loop as it is. *)
Equations? while_loop (url : string) (retries : Z) (net : Z -> attempt_outcome)
    (attempt : Z) (last_error : option string) (trace : list event)
  : result value * list event
  by wf (Z.to_nat (retries + 1 - attempt)) lt :=
while_loop url retries net attempt last_error trace
  with Z_le_gt_dec attempt retries => {
  | left _ with try_attempt (net attempt) => {
    | Returned v => (Ret v, (trace ++ [Get url])%list);
    | Raised e => (Raise e, (trace ++ [Get url])%list);
    | FellThrough err =>
        if attempt + 1 <=? retries
        then
          match wait_time (attempt + 1) with
          | Ret seconds =>
              while_loop url retries net (attempt + 1) (Some err)
                ((trace ++ [Get url]) ++ [Sleep seconds])%list
          | Raise e => (Raise e, (trace ++ [Get url])%list)
          end
        else
          while_loop url retries net (attempt + 1) (Some err)
            (trace ++ [Get url])%list };
  | right _ =>
      (Raise (WeatherAPIError
                ("Failed after " ++ str_int (retries + 1) ++ " attempts: "
                 ++ str_last_error last_error)),
       trace) }.
Proof. all: lia. Qed.

Definition make_gc_request (url : string) (retries : Z)
    (net : Z -> attempt_outcome) : result value * list event :=
  while_loop url retries net 0 None [].


(** ** Reading a trace *)

Definition error_text (o : attempt_outcome) : string :=
  match o with
  | Success _ => ""
  | HTTPStatusError _ msg | RequestError msg | UnexpectedError msg => msg
  end.

(** The outcomes the specification calls transient. *)
Definition retryable (o : attempt_outcome) : Prop :=
  match o with
  | HTTPStatusError status_code _ => status_code = 429 \/ 500 <= status_code
  | RequestError _ => True
  | _ => False
  end.

Fixpoint requests (trace : list event) : nat :=
  match trace with
  | [] => O
  | Get _ :: rest => S (requests rest)
  | Sleep _ :: rest => requests rest
  end.

Fixpoint sleeps (trace : list event) : list Q :=
  match trace with
  | [] => []
  | Get _ :: rest => sleeps rest
  | Sleep w :: rest => w :: sleeps rest
  end.

(** [n] requests in a row, the first one with index [attempt], and a
    backoff sleep between each two of them. *)
Fixpoint backoff_trace (url : string) (attempt : Z) (n : nat) : list event :=
  match n with
  | O => []
  | S n' =>
      match n' with
      | O => [Get url]
      | S _ =>
          Get url :: Sleep (backoff_seconds (attempt + 1))
          :: backoff_trace url (attempt + 1) n'
      end
  end.

(** ** The formatter and validator *)

Section Weather.

(** What [str()] and an f-string field give for a [float], a [list] or a
    [dict]: the interpreter's own formatting, taken as given. *)
Variable format_builtin : value -> string.

Definition py_str (v : value) : string :=
  match v with
  | VStr s => s
  | VNone => "None"
  | VBool true => "True"
  | VBool false => "False"
  | VInt z => str_int z
  | _ => format_builtin v
  end.

(** The [for day in daily_forecast] loop, with its two accumulators. *)
Fixpoint format_loop (days : list value) (max_days : Z)
    (forecasts : list string) (days_added : Z) : result (list string) :=
  match days with
  | [] => Ret forecasts
  | day :: rest =>
      label <- py_get day "periodLabel" VNone ;;
      if eq_str label "Night" || (max_days <=? days_added)
      then format_loop rest max_days forecasts days_added
      else
        date <- py_get day "date" (VStr "Unknown date") ;;
        text <- py_get day "text" (VStr "No forecast available") ;;
        let forecast :=
          LF ++ py_str date ++ ":" ++ LF ++ "Forecast: " ++ py_str text ++ LF in
        format_loop rest max_days (forecasts ++ [forecast])%list (days_added + 1)
  end.

Definition format_forecast (daily_forecast : list value) (max_days : Z)
  : result string :=
  forecasts <- format_loop daily_forecast max_days [] 0 ;;
  match forecasts with
  | [] => Ret "No forecast data available"
  | _ => Ret (join (LF ++ "---" ++ LF) forecasts)
  end.

(** The body of the [try] in [get_forecast], from the decoded response on. *)
Definition process_response (api_response : value) : result string :=
  let unable := Ret "Unable to fetch forecast data for this location" in
  if negb (truthy api_response) then unable
  else if negb (is_list api_response) then unable
  else
    n <- py_len api_response ;;
    if n =? 0 then unable
    else
      forecast_data <- py_item0 api_response ;;
      dailyFcst <- py_get forecast_data "dailyFcst" (VDict []) ;;
      daily_forecast <- py_get dailyFcst "daily" (VList []) ;;
      if negb (truthy daily_forecast)
      then Ret "No forecast data available for this location"
      else
        days <- py_iter daily_forecast ;;
        format_forecast days 5.

(** The three [except] clauses of [get_forecast], in order. *)
Definition handlers (e : exn) : result string :=
  match e with
  | WeatherAPIError msg => Ret ("Weather API error: " ++ msg)
  | KeyError msg => Ret ("Unable to process forecast data: missing key " ++ msg)
  | _ => Ret ("Error processing forecast data: " ++ exn_str e)
  end.

Definition forecast_url (latitude longitude : value) : string :=
  GC_API_BASE ++ "/api/app/en/Location/" ++ py_str latitude ++ ","
  ++ py_str longitude ++ "?type=city".

(** [get_forecast], over the network layer it calls: [request url] is what
    awaiting [make_gc_request(url)] gives, with the events it caused. *)
Definition get_forecast_with (request : string -> result value * list event)
    (latitude longitude : value) : result string * list event :=
  if negb (is_number latitude) || negb (is_number longitude)
  then (Ret "Error: Latitude and longitude must be numbers", [])
  else if py_lt latitude (-90) || py_gt latitude 90
  then (Ret "Error: Latitude must be between -90 and 90 degrees", [])
  else if py_lt longitude (-180) || py_gt longitude 180
  then (Ret "Error: Longitude must be between -180 and 180 degrees", [])
  else
    let (response, trace) := request (forecast_url latitude longitude) in
    (try_except (api_response <- response ;; process_response api_response)
       handlers,
     trace).

Definition get_forecast (net : Z -> attempt_outcome)
    (latitude longitude : value) : result string * list event :=
  get_forecast_with (fun url => make_gc_request url MAX_RETRIES net)
    latitude longitude.

(** ** The formatter, read declaratively *)

(** The body of a [dict] entry of the daily sequence. *)
Definition entry : Type := list (string * value).

Definition SEPARATOR : string := LF ++ "---" ++ LF.

(** The period label is exactly ["Night"], or exactly ["Day"]. *)
Definition is_night (d : entry) : bool :=
  match dict_find d "periodLabel" with
  | Some (VStr label) => String.eqb label "Night"
  | _ => false
  end.


(** A field as it is shown: its text, or the placeholder when the key is
    absent. *)
Definition shown_field (d : entry) (key placeholder : string) : string :=
  match dict_find d key with
  | Some v => py_str v
  | None => placeholder
  end.

(** The block of one entry: the date line, then the forecast line. *)
Definition rendered_block (d : entry) : string :=
  LF ++ shown_field d "date" "Unknown date" ++ ":" ++ LF
  ++ "Forecast: " ++ shown_field d "text" "No forecast available" ++ LF.

(** The entries that end up in the output: those not labelled ["Night"],
    up to the cap. *)
Definition retained (ds : list entry) (max_days : Z) : list entry :=
  firstn (Z.to_nat max_days) (filter (fun d => negb (is_night d)) ds).


(** Both arguments are numbers and neither is below or above its range. *)
Definition valid_coordinates (latitude longitude : value) : bool :=
  is_number latitude && is_number longitude
  && negb (py_lt latitude (-90) || py_gt latitude 90)
  && negb (py_lt longitude (-180) || py_gt longitude 180).

(** The text that starts the message of the [KeyError] handler. *)
Definition MISSING_KEY : string := "Unable to process forecast data: missing key".

(** A string that starts with a line feed, as every block does. *)
Definition starts_with_LF (s : string) : Prop :=
  exists rest, s = String "010"%char rest.

(** The result is a text that does not start like the [KeyError] message,
    or an exception other than [KeyError]. *)
Definition no_key_error (r : result string) : Prop :=
  match r with
  | Ret s => prefix MISSING_KEY s = false
  | Raise (KeyError _) => False
  | Raise _ => True
  end.

(** ** Further readings of a run *)

(** The outcomes after which the loop goes on to the next attempt: a
    transport error, and a status error outside [400, 500) or equal to
    429. *)
Definition retried (o : attempt_outcome) : bool :=
  match o with
  | HTTPStatusError status_code _ => negb (client_error status_code)
  | RequestError _ => true
  | _ => false
  end.

(** The outcomes that end the run at once, with what the run gives. *)
Definition final (o : attempt_outcome) : option (result value) :=
  match try_attempt o with
  | Returned v => Some (Ret v)
  | Raised e => Some (Raise e)
  | FellThrough _ => None
  end.

Fixpoint urls (trace : list event) : list string :=
  match trace with
  | [] => []
  | Get url :: rest => url :: urls rest
  | Sleep _ :: rest => urls rest
  end.

(** The seconds slept in a run, all sleeps together. *)
Definition total_sleep (trace : list event) : Q :=
  fold_right Qplus 0%Q (sleeps trace).

Definition is_dict (v : value) : bool :=
  match v with
  | VDict _ => true
  | _ => false
  end.

(** The texts of the two errors that navigating a payload can raise. *)
Definition no_get (v : value) : string :=
  "'" ++ type_name v ++ "' object has no attribute 'get'".

Definition not_iterable (v : value) : string :=
  "'" ++ type_name v ++ "' object is not iterable".

(** The texts [get_forecast] can return: the fixed messages, a network
    error, a processing error of one of two kinds, or a forecast, which
    starts with a line feed. *)
Definition output_kind (s : string) : Prop :=
  In s ["Error: Latitude and longitude must be numbers";
        "Error: Latitude must be between -90 and 90 degrees";
        "Error: Longitude must be between -180 and 180 degrees";
        "Unable to fetch forecast data for this location";
        "No forecast data available for this location";
        "No forecast data available"]
  \/ (exists msg, s = "Weather API error: " ++ msg)
  \/ (exists v, s = "Error processing forecast data: " ++ no_get v)
  \/ (exists v, s = "Error processing forecast data: " ++ not_iterable v)
  \/ starts_with_LF s.

(** ** Sample data *)

(** A network that answers with the given status codes, one per attempt,
    and times out afterwards. *)
Definition codes (l : list Z) (attempt : Z) : attempt_outcome :=
  match nth_error l (Z.to_nat attempt) with
  | Some 200 => Success (VList [])
  | Some c => HTTPStatusError c ("status " ++ str_int c)
  | None => RequestError "timeout"
  end.

(** The floats 90.0 and 180.0 (53-bit mantissa), with either sign. *)
Definition float_90 (negative : bool) : spec_float :=
  S754_finite negative 6333186975989760 (-46).

Definition float_180 (negative : bool) : spec_float :=
  S754_finite negative 6333186975989760 (-45).

(** The floats of the test suite: 45.0, -75.0, 100.0, 200.0 and 0.0. *)
Definition float_45 : spec_float := S754_finite false 6333186975989760 (-47).
Definition float_m75 : spec_float := S754_finite true 5277655813324800 (-46).
Definition float_100 : spec_float := S754_finite false 7036874417766400 (-46).
Definition float_200 : spec_float := S754_finite false 7036874417766400 (-45).
Definition float_0 : spec_float := S754_zero false.

(** A formatter for the concrete runs. It gives a float with an integral
    value below 10^16 the text Python gives it ("45.0"), and leaves every
    other float, list and dict unreadable. *)
Definition sample_format (v : value) : string :=
  match v with
  | VFloat (S754_zero s) => if s then "-0.0" else "0.0"
  | VFloat (S754_finite s m e) =>
      if (e <=? 0) && (Z.pos m mod 2 ^ (- e) =? 0)
         && (Z.pos m / 2 ^ (- e) <? 10 ^ 16)
      then (if s then "-" else "") ++ str_int (Z.pos m / 2 ^ (- e)) ++ ".0"
      else "<float>"
  | _ => "<object>"
  end.

(** The payload of the test suite. *)
Definition sample_entry (date label text : string) : entry :=
  [("date", VStr date); ("periodLabel", VStr label); ("text", VStr text)].

Definition SAMPLE_DAILY : list entry :=
  [sample_entry "2023-01-01" "Day" "Sunny with cloudy periods";
   sample_entry "2023-01-01" "Night" "Clear";
   sample_entry "2023-01-02" "Day" "Cloudy with chance of rain";
   sample_entry "2023-01-02" "Night" "Cloudy";
   sample_entry "2023-01-03" "Day" "Sunny"].

Definition SAMPLE_API_RESPONSE : value :=
  VList [VDict [("displayName", VStr "Test City");
                ("dailyFcst", VDict [("daily", VList (map VDict SAMPLE_DAILY))])]].

(** ** The retry loop, one iteration at a time *)

(** Settles the loop guard [a <=? b] of the goal from the context. *)
Ltac settle_guard :=
  match goal with
  | |- context [?a <=? ?b] =>
      first [ replace (a <=? b) with true by (symmetry; apply Z.leb_le; lia)
            | replace (a <=? b) with false by (symmetry; apply Z.leb_gt; lia) ]
  end.

Lemma while_loop_step url retries net attempt last_error trace :
  while_loop url retries net attempt last_error trace =
  if attempt <=? retries then
    match try_attempt (net attempt) with
    | Returned v => (Ret v, (trace ++ [Get url])%list)
    | Raised e => (Raise e, (trace ++ [Get url])%list)
    | FellThrough err =>
        if attempt + 1 <=? retries
        then
          match wait_time (attempt + 1) with
          | Ret seconds =>
              while_loop url retries net (attempt + 1) (Some err)
                ((trace ++ [Get url]) ++ [Sleep seconds])%list
          | Raise e => (Raise e, (trace ++ [Get url])%list)
          end
        else
          while_loop url retries net (attempt + 1) (Some err)
            (trace ++ [Get url])%list
    end
  else
    (Raise (WeatherAPIError
              ("Failed after " ++ str_int (retries + 1) ++ " attempts: "
               ++ str_last_error last_error)),
     trace).
Proof.
  simp while_loop.
  destruct (Z_le_gt_dec attempt retries) as [Hle | Hgt]; simpl.
  - replace (attempt <=? retries) with true by (symmetry; apply Z.leb_le; exact Hle).
    destruct (try_attempt (net attempt)); reflexivity.
  - replace (attempt <=? retries) with false by (symmetry; apply Z.leb_gt; lia).
    reflexivity.
Qed.

(** ** The backoff and the range of a float *)

Lemma wait_time_finite attempt :
  attempt <= 1024 -> wait_time attempt = Ret (backoff_seconds attempt).
Proof.
  intros H. unfold wait_time.
  replace (2 ^ (attempt - 1) <? 2 ^ 1024) with true; [reflexivity |].
  symmetry. apply Z.ltb_lt.
  destruct (Z_lt_le_dec (attempt - 1) 0) as [Hneg | Hpos].
  - rewrite (Z.pow_neg_r 2 (attempt - 1) Hneg). apply Z.pow_pos_nonneg; lia.
  - apply Z.pow_lt_mono_r; lia.
Qed.

Lemma wait_time_overflow attempt :
  1025 <= attempt ->
  wait_time attempt = Raise (OverflowError "int too large to convert to float").
Proof.
  intros H. unfold wait_time.
  replace (2 ^ (attempt - 1) <? 2 ^ 1024) with false; [reflexivity |].
  symmetry. apply Z.ltb_ge. apply Z.pow_le_mono_r; lia.
Qed.

Lemma wait_time_cases attempt :
  wait_time attempt = Ret (backoff_seconds attempt)
  \/ wait_time attempt = Raise (OverflowError "int too large to convert to float").
Proof.
  unfold wait_time. destruct (2 ^ (attempt - 1) <? 2 ^ 1024); [now left | now right].
Qed.

(** ** What a run of the executor leaves in the trace *)

Lemma backoff_trace_SS url attempt n :
  backoff_trace url attempt (S (S n)) =
  Get url :: Sleep (backoff_seconds (attempt + 1))
  :: backoff_trace url (attempt + 1) (S n).
Proof. reflexivity. Qed.

Lemma backoff_trace_head url attempt n :
  exists rest, backoff_trace url attempt (S n) = Get url :: rest.
Proof. destruct n; eexists; reflexivity. Qed.

Lemma requests_backoff url n : forall attempt,
  requests (backoff_trace url attempt n) = n.
Proof.
  induction n as [| [| n] IH]; intro attempt; try reflexivity.
  rewrite backoff_trace_SS. cbn [requests]. now rewrite IH.
Qed.

Lemma sleeps_backoff_length url n : forall attempt,
  List.length (sleeps (backoff_trace url attempt n)) = Nat.pred n.
Proof.
  induction n as [| [| n] IH]; intro attempt; try reflexivity.
  rewrite backoff_trace_SS. cbn [sleeps List.length]. now rewrite IH.
Qed.

(** A sleep in such a trace: as many requests before it as sleeps up to
    it, the delay of that retry, and a request right after it. *)
Lemma backoff_sleep url n : forall attempt pre d post,
  backoff_trace url attempt n = (pre ++ Sleep d :: post)%list ->
  requests pre = S (List.length (sleeps pre))
  /\ d = backoff_seconds (attempt + Z.of_nat (requests pre))
  /\ exists post', post = Get url :: post'.
Proof.
  induction n as [| [| n] IH]; intros attempt pre d post.
  - destruct pre; discriminate.
  - destruct pre as [| e [| e' pre]]; discriminate.
  - rewrite backoff_trace_SS. destruct pre as [| e [| e' pre]].
    + discriminate.
    + cbn. intros [= <- <- <-]. repeat split.
      destruct n; eexists; reflexivity.
    + cbn [app]. intros [= <- <- H].
      destruct (IH _ _ _ _ H) as (Hreq & Hd & Hpost).
      cbn [requests sleeps List.length]. repeat split.
      * now rewrite Hreq.
      * rewrite Hd. f_equal. lia.
      * exact Hpost.
Qed.

(** The [k]-th and the next request of such a trace, and the sleep that
    stands between them. *)
Lemma backoff_between url n : forall attempt (k : nat),
  (1 <= k < n)%nat ->
  exists pre post,
    backoff_trace url attempt n =
      (pre ++ Get url :: Sleep (backoff_seconds (attempt + Z.of_nat k))
           :: Get url :: post)%list
    /\ requests pre = (k - 1)%nat
    /\ List.length (sleeps pre) = (k - 1)%nat.
Proof.
  induction n as [| [| n] IH]; intros attempt k Hk; try lia.
  rewrite backoff_trace_SS. destruct k as [| [| k]]; [lia | |].
  - destruct (backoff_trace_head url (attempt + 1) n) as [rest ->].
    exists [], rest. repeat split.
  - destruct (IH (attempt + 1) (S k) ltac:(lia)) as (pre & post & -> & Hreq & Hsl).
    exists (Get url :: Sleep (backoff_seconds (attempt + 1)) :: pre), post.
    replace (attempt + Z.of_nat (S (S k))) with (attempt + 1 + Z.of_nat (S k))
      by lia.
    cbn [app requests sleeps List.length]. rewrite Hreq, Hsl.
    repeat split; lia.
Qed.

Lemma retryable_falls_through o :
  retryable o -> try_attempt o = FellThrough (error_text o).
Proof.
  destruct o as [body | status_code msg | msg | msg]; cbn;
    [intros [] | | reflexivity | intros []].
  intros H. unfold client_error.
  destruct (status_code =? 429) eqn:E429.
  - now rewrite andb_false_r.
  - replace (status_code <? 500) with false; [now rewrite andb_false_r |].
    symmetry. apply Z.ltb_ge. apply Z.eqb_neq in E429. lia.
Qed.

Lemma client_error_raises status_code msg :
  400 <= status_code < 500 -> status_code <> 429 ->
  try_attempt (HTTPStatusError status_code msg) =
  Raised (WeatherAPIError ("Client error: " ++ msg)).
Proof.
  intros [Hlo Hhi] Hne. cbn. unfold client_error.
  apply Z.leb_le in Hlo. apply Z.ltb_lt in Hhi. apply Z.eqb_neq in Hne.
  now rewrite Hlo, Hhi, Hne.
Qed.

Lemma retried_falls_through o :
  retried o = true -> try_attempt o = FellThrough (error_text o).
Proof.
  destruct o as [body | status_code msg | msg | msg]; cbn;
    try discriminate; [| reflexivity].
  now destruct (client_error status_code).
Qed.

Lemma retryable_retried o : retryable o -> retried o = true.
Proof.
  intros H. pose proof (retryable_falls_through o H) as Hft.
  destruct o as [body | status_code msg | msg | msg]; cbn in *;
    try discriminate; [| reflexivity].
  now destruct (client_error status_code).
Qed.

Lemma fell_through_retried o err :
  try_attempt o = FellThrough err -> retried o = true.
Proof.
  destruct o as [body | status_code msg | msg | msg]; cbn;
    try discriminate; [| reflexivity].
  now destruct (client_error status_code).
Qed.

(** Every run leaves requests separated by backoff sleeps, at most
    [retries + 1] of them, at least one when the loop is entered, and none
    after an attempt whose outcome is not retried. *)
Lemma while_loop_trace url retries net : forall m attempt last_error trace,
  m = Z.to_nat (retries + 1 - attempt) ->
  exists n,
    snd (while_loop url retries net attempt last_error trace) =
      (trace ++ backoff_trace url attempt n)%list
    /\ (n <= m)%nat
    /\ (attempt <= retries -> (1 <= n)%nat)
    /\ (forall k, attempt <= k -> retried (net k) = false ->
        Z.of_nat n <= k - attempt + 1).
Proof.
  induction m as [| m IH]; intros attempt last_error trace Hm;
    rewrite while_loop_step.
  - settle_guard.
    exists O. cbn. rewrite app_nil_r. repeat split; lia.
  - settle_guard.
    destruct (try_attempt (net attempt)) as [v | e | err] eqn:Htry.
    + exists 1%nat. cbn. repeat split; lia.
    + exists 1%nat. cbn. repeat split; lia.
    + assert (Hstop : forall k, attempt <= k -> retried (net k) = false ->
                        attempt + 1 <= k).
      { intros k Hk Hfin. destruct (Z.eq_dec k attempt) as [-> | Hne]; [| lia].
        rewrite (fell_through_retried _ _ Htry) in Hfin. discriminate. }
      destruct (attempt + 1 <=? retries) eqn:Hnext.
      * apply Z.leb_le in Hnext.
        destruct (wait_time_cases (attempt + 1)) as [-> | ->].
        -- destruct (IH (attempt + 1) (Some err)
                       ((trace ++ [Get url])
                        ++ [Sleep (backoff_seconds (attempt + 1))])%list
                       ltac:(lia))
             as (n & Htr & Hle & Hge & Hfin).
           rewrite Htr. specialize (Hge Hnext).
           destruct n as [| n]; [lia |].
           exists (S (S n)). rewrite backoff_trace_SS.
           rewrite <- !app_assoc. cbn [app].
           repeat split; try lia.
           intros k Hk Hk'. specialize (Hstop k Hk Hk').
           specialize (Hfin k Hstop Hk'). lia.
        -- exists 1%nat. cbn [snd backoff_trace]. repeat split; lia.
      * apply Z.leb_gt in Hnext.
        destruct (IH (attempt + 1) (Some err) (trace ++ [Get url])%list
                    ltac:(lia))
          as (n & Htr & Hle & _ & _).
        rewrite Htr. assert (n = O) by lia. subst n.
        exists 1%nat. cbn. rewrite app_nil_r. repeat split; lia.
Qed.

(** The trace of any run of the executor, in one statement. *)
Lemma run_trace url retries net :
  exists n,
    snd (make_gc_request url retries net) = backoff_trace url 0 n
    /\ Z.of_nat n <= Z.max 0 (retries + 1)
    /\ (0 <= retries -> (1 <= n)%nat).
Proof.
  unfold make_gc_request.
  destruct (while_loop_trace url retries net _ 0 None [] eq_refl)
    as (n & Htr & Hle & Hge & _).
  exists n. cbn [app] in Htr. repeat split; [exact Htr | lia | exact Hge].
Qed.

(** Transient outcomes up to the attempt with index 1024, and more
    attempts allowed: the backoff of the next one is out of range. *)
Lemma while_loop_overflow url retries net : forall k attempt last_error trace,
  attempt + Z.of_nat k = 1024 ->
  1025 <= retries ->
  (forall j, attempt <= j <= 1024 -> retryable (net j)) ->
  while_loop url retries net attempt last_error trace =
  (Raise (OverflowError "int too large to convert to float"),
   (trace ++ backoff_trace url attempt (S k))%list).
Proof.
  induction k as [| k IH]; intros attempt last_error trace Hk Hr Hall;
    rewrite while_loop_step; settle_guard;
    rewrite (retryable_falls_through (net attempt)) by (apply Hall; lia);
    settle_guard.
  - rewrite wait_time_overflow by lia. reflexivity.
  - rewrite wait_time_finite by lia.
    rewrite IH by (try lia; intros j Hj; apply Hall; lia).
    rewrite backoff_trace_SS, <- !app_assoc. reflexivity.
Qed.

Lemma while_loop_client_error url retries net status_code msg :
  400 <= status_code < 500 -> status_code <> 429 ->
  forall attempt last_error trace,
    attempt <= retries ->
    net attempt = HTTPStatusError status_code msg ->
    while_loop url retries net attempt last_error trace =
    (Raise (WeatherAPIError ("Client error: " ++ msg)),
     (trace ++ [Get url])%list).
Proof.
  intros Hrange Hne attempt last_error trace Hle Hnet.
  rewrite while_loop_step.
  settle_guard.
  now rewrite Hnet, client_error_raises.
Qed.

(** ** The request executor: retry policy *)

(** C3: when the first response carries a status in [400, 500) other than
    429, the executor fails at once with the client error: the trace holds
    that one request and nothing else, so exactly one attempt, no backoff
    sleep and no further request. *)
Theorem client_error_fails_immediately url retries net status_code msg :
  0 <= retries ->
  400 <= status_code < 500 -> status_code <> 429 ->
  net 0 = HTTPStatusError status_code msg ->
  make_gc_request url retries net =
    (Raise (WeatherAPIError ("Client error: " ++ msg)), [Get url])
  /\ requests (snd (make_gc_request url retries net)) = 1%nat
  /\ sleeps (snd (make_gc_request url retries net)) = [].
Proof.
  intros Hr Hrange Hne Hnet. unfold make_gc_request.
  rewrite (while_loop_client_error url retries net status_code msg
             Hrange Hne 0 None [] Hr Hnet).
  repeat split.
Qed.

(** C4, where the code departs from it: with [retries] of 1025 or more and
    only transient outcomes, the backoff before the attempt with index
    1025 is [1.0 * 2 ** 1024], whose conversion to a float raises
    [OverflowError] outside the [try]. The run ends there, after 1025
    requests, fewer than [retries + 1], and the error is not the
    exhausted-retries [WeatherAPIError]. *)
Theorem overflow_before_retries_exhausted url retries net :
  1025 <= retries ->
  (forall k, 0 <= k <= 1024 -> retryable (net k)) ->
  make_gc_request url retries net =
    (Raise (OverflowError "int too large to convert to float"),
     backoff_trace url 0 1025)
  /\ requests (snd (make_gc_request url retries net)) = 1025%nat
  /\ Z.of_nat (requests (snd (make_gc_request url retries net))) < retries + 1
  /\ (forall msg,
        fst (make_gc_request url retries net) <> Raise (WeatherAPIError msg)).
Proof.
  intros Hr Hall. unfold make_gc_request.
  rewrite (while_loop_overflow url retries net 1024 0 None [])
    by (try lia; exact Hall).
  cbn [fst snd app]. rewrite requests_backoff.
  repeat split; [lia | discriminate].
Qed.

(** C5: in every run, the [k]-th retry (the request number [k + 1]) has
    right before it a sleep of [RETRY_DELAY * 2^(k-1)] seconds, which comes
    right after the request number [k]; there is one sleep fewer than
    requests, and every sleep is followed at once by a request, so a sleep
    occurs only when another attempt is made. No more than [retries + 1]
    requests are made, and none after an attempt that is not retried: a
    success or a fatal error ends the trace with its request, with no
    sleep after it. *)
Theorem backoff_delay url retries net :
  let trace := snd (make_gc_request url retries net) in
  (forall k : nat,
      (1 <= k)%nat -> (k < requests trace)%nat ->
      exists pre post,
        trace =
          (pre ++ Get url
               :: Sleep (RETRY_DELAY * inject_Z (2 ^ (Z.of_nat k - 1)))%Q
               :: Get url :: post)%list
        /\ requests pre = (k - 1)%nat
        /\ List.length (sleeps pre) = (k - 1)%nat)
  /\ List.length (sleeps trace) = Nat.pred (requests trace)
  /\ (forall pre d post,
        trace = (pre ++ Sleep d :: post)%list ->
        exists post', post = Get url :: post')
  /\ Z.of_nat (requests trace) <= Z.max 0 (retries + 1)
  /\ (forall (k : nat) body,
        net (Z.of_nat k) = Success body -> (requests trace <= S k)%nat)
  /\ (forall k : nat,
        retried (net (Z.of_nat k)) = false -> (requests trace <= S k)%nat).
Proof.
  cbn zeta. unfold make_gc_request.
  destruct (while_loop_trace url retries net _ 0 None [] eq_refl)
    as (n & Htr & Hle & _ & Hstop).
  rewrite Htr. cbn [app]. rewrite requests_backoff.
  assert (Hfinal : forall k : nat,
             retried (net (Z.of_nat k)) = false -> (n <= S k)%nat).
  { intros k Hk. specialize (Hstop (Z.of_nat k) ltac:(lia) Hk). lia. }
  split; [| split; [| split; [| split; [| split]]]].
  - intros k Hk1 Hk2.
    destruct (backoff_between url n 0 k ltac:(lia))
      as (pre & post & Heq & Hreq & Hsl).
    exists pre, post. repeat split; assumption.
  - apply sleeps_backoff_length.
  - intros pre d post H.
    now destruct (backoff_sleep _ _ _ _ _ _ H) as (_ & _ & Hpost).
  - lia.
  - intros k body Hnet. apply Hfinal. now rewrite Hnet.
  - exact Hfinal.
Qed.

(** ** The formatter on a sequence of entries *)

Lemma shown_field_get (d : entry) key placeholder :
  py_str (dict_get d key (VStr placeholder)) = shown_field d key placeholder.
Proof. unfold dict_get, shown_field. now destruct (dict_find d key). Qed.

Lemma label_is_night (d : entry) :
  eq_str (dict_get d "periodLabel" VNone) "Night" = is_night d.
Proof.
  unfold dict_get, is_night.
  now destruct (dict_find d "periodLabel") as [[] |].
Qed.

(** The loop against the declarative reading: it appends the blocks of the
    entries not labelled ["Night"], as many as the cap still allows. *)
Lemma format_loop_entries (ds : list entry) : forall max_days forecasts days_added,
  format_loop (map VDict ds) max_days forecasts days_added =
  Ret (forecasts
       ++ map rendered_block
            (firstn (Z.to_nat (max_days - days_added))
               (filter (fun d => negb (is_night d)) ds)))%list.
Proof.
  induction ds as [| d ds IH]; intros max_days forecasts days_added.
  - cbn. now rewrite firstn_nil, app_nil_r.
  - cbn [map format_loop py_get bind filter]. rewrite label_is_night.
    destruct (is_night d); cbn [orb negb].
    + apply IH.
    + destruct (max_days <=? days_added) eqn:Hcap.
      * rewrite IH. apply Z.leb_le in Hcap.
        replace (Z.to_nat (max_days - days_added)) with O by lia.
        reflexivity.
      * rewrite !shown_field_get, IH. apply Z.leb_gt in Hcap.
        replace (Z.to_nat (max_days - days_added))
          with (S (Z.to_nat (max_days - (days_added + 1)))) by lia.
        cbn [firstn map]. rewrite <- app_assoc. reflexivity.
Qed.

Lemma format_loop_retained (ds : list entry) max_days :
  format_loop (map VDict ds) max_days [] 0 =
  Ret (map rendered_block (retained ds max_days)).
Proof.
  rewrite format_loop_entries. unfold retained.
  now rewrite Z.sub_0_r.
Qed.

Lemma format_forecast_retained (ds : list entry) max_days :
  format_forecast (map VDict ds) max_days =
  Ret (match retained ds max_days with
       | [] => "No forecast data available"
       | _ => join SEPARATOR (map rendered_block (retained ds max_days))
       end).
Proof.
  unfold format_forecast. rewrite format_loop_retained. cbn [bind].
  now destruct (retained ds max_days).
Qed.












(** ** The formatter: which entries are shown, and how *)


(** C8: the output is the blocks of the retained entries joined with the
    separator (a line feed, three dashes, a line feed); a block is a line
    feed, the date and a colon, a line feed, the forecast label with the
    text, a line feed; an absent date reads "Unknown date" and an absent
    text "No forecast available". *)
Theorem blocks_and_separator (ds : list entry) max_days :
  format_forecast (map VDict ds) max_days =
    Ret (match retained ds max_days with
         | [] => "No forecast data available"
         | shown => join (LF ++ "---" ++ LF) (map rendered_block shown)
         end)
  /\ (forall d : entry,
        rendered_block d =
        LF ++ match dict_find d "date" with
              | Some (VStr date) => date
              | Some v => py_str v
              | None => "Unknown date"
              end
        ++ ":" ++ LF ++ "Forecast: "
        ++ match dict_find d "text" with
           | Some (VStr text) => text
           | Some v => py_str v
           | None => "No forecast available"
           end
        ++ LF)
  /\ (forall block, join (LF ++ "---" ++ LF) [block] = block)
  /\ (forall block1 block2 blocks,
        join (LF ++ "---" ++ LF) (block1 :: block2 :: blocks) =
        block1 ++ LF ++ "---" ++ LF
        ++ join (LF ++ "---" ++ LF) (block2 :: blocks)).
Proof.
  split; [| split; [| split]].
  - rewrite format_forecast_retained. now destruct (retained ds max_days).
  - intros d. unfold rendered_block, shown_field.
    destruct (dict_find d "date") as [[] |];
      destruct (dict_find d "text") as [[] |]; reflexivity.
  - reflexivity.
  - reflexivity.
Qed.


(** ** Validation of the coordinates *)

Lemma get_forecast_with_valid request latitude longitude :
  valid_coordinates latitude longitude = true ->
  get_forecast_with request latitude longitude =
  (try_except
     (api_response <- fst (request (forecast_url latitude longitude)) ;;
      process_response api_response)
     handlers,
   snd (request (forecast_url latitude longitude))).
Proof.
  unfold valid_coordinates, get_forecast_with. intros H.
  apply andb_prop in H. destruct H as [H Hlon].
  apply andb_prop in H. destruct H as [H Hlat].
  apply andb_prop in H. destruct H as [Hn1 Hn2].
  rewrite Hn1, Hn2. cbn [negb orb].
  apply negb_true_iff in Hlat. apply negb_true_iff in Hlon.
  rewrite Hlat, Hlon.
  now destruct (request (forecast_url latitude longitude)).
Qed.

(** C6: the checks come in the order type, latitude range, longitude
    range, and the first one that fails decides. A latitude or longitude
    that is not a number gives the type error, and no request is made; a
    latitude below -90 or above 90 gives the latitude error whatever the
    longitude (a number) is; with the latitude in range, a longitude below
    -180 or above 180 gives the longitude error; and the bounds -90, 90,
    -180 and 180 themselves, as [int] or as [float], pass: the request is
    made and its response processed. *)
Theorem validation_first_failure_wins request latitude longitude :
  (is_number latitude = false \/ is_number longitude = false ->
   get_forecast_with request latitude longitude =
   (Ret "Error: Latitude and longitude must be numbers", []))
  /\ (is_number latitude = true -> is_number longitude = true ->
      py_lt latitude (-90) = true \/ py_gt latitude 90 = true ->
      get_forecast_with request latitude longitude =
      (Ret "Error: Latitude must be between -90 and 90 degrees", []))
  /\ (is_number latitude = true -> is_number longitude = true ->
      py_lt latitude (-90) = false -> py_gt latitude 90 = false ->
      py_lt longitude (-180) = true \/ py_gt longitude 180 = true ->
      get_forecast_with request latitude longitude =
      (Ret "Error: Longitude must be between -180 and 180 degrees", []))
  /\ (In latitude [VInt (-90); VInt 90;
                   VFloat (float_90 true); VFloat (float_90 false)] ->
      In longitude [VInt (-180); VInt 180;
                    VFloat (float_180 true); VFloat (float_180 false)] ->
      get_forecast_with request latitude longitude =
      (try_except
         (api_response <- fst (request (forecast_url latitude longitude)) ;;
          process_response api_response)
         handlers,
       snd (request (forecast_url latitude longitude)))).
Proof.
  split; [| split; [| split]].
  - unfold get_forecast_with. intros [H | H]; rewrite H; cbn [negb orb];
      [reflexivity | now rewrite orb_true_r].
  - unfold get_forecast_with. intros Hn1 Hn2 Hout. rewrite Hn1, Hn2.
    cbn [negb orb].
    replace (py_lt latitude (-90) || py_gt latitude 90) with true;
      [reflexivity |].
    destruct Hout as [H | H]; rewrite H; [reflexivity | now rewrite orb_true_r].
  - unfold get_forecast_with. intros Hn1 Hn2 Hlo Hhi Hout.
    rewrite Hn1, Hn2, Hlo, Hhi. cbn [negb orb].
    replace (py_lt longitude (-180) || py_gt longitude 180) with true;
      [reflexivity |].
    destruct Hout as [H | H]; rewrite H; [reflexivity | now rewrite orb_true_r].
  - intros Hlat Hlon. apply get_forecast_with_valid.
    cbn [In] in Hlat, Hlon.
    destruct Hlat as [<- | [<- | [<- | [<- | []]]]];
      destruct Hlon as [<- | [<- | [<- | [<- | []]]]]; reflexivity.
Qed.

(** A NaN is a [float] that is neither below nor above any bound: both
    range checks let it through. *)
Remark nan_passes_validation :
  valid_coordinates (VFloat S754_nan) (VFloat S754_nan) = true.
Proof. reflexivity. Qed.

(** ** Processing the response *)

Lemma truthy_entries (ds : list entry) :
  ds <> [] -> truthy (VList (map VDict ds)) = true.
Proof. now destruct ds. Qed.

(** The daily sequence of a location entry, when both keys lead to it. *)
Lemma process_response_daily (location : entry) rest daily :
  py_get (dict_get location "dailyFcst" (VDict [])) "daily" (VList []) =
    Ret daily ->
  process_response (VList (VDict location :: rest)) =
  if negb (truthy daily)
  then Ret "No forecast data available for this location"
  else days <- py_iter daily ;; format_forecast days 5.
Proof.
  intros Hdaily. unfold process_response.
  cbn [truthy negb is_list py_len bind].
  change (Z.of_nat (List.length (VDict location :: rest)) =? 0) with false.
  cbn [py_item0 py_get bind]. now rewrite Hdaily.
Qed.

(** C7: three outcomes without data, three different texts. A payload that
    is [None], not a [list], or an empty [list] gives "Unable to fetch
    forecast data for this location". A first element in which the key
    [dailyFcst] or, under it, the key [daily] is absent, or in which the
    daily sequence is empty, gives "No forecast data available for this
    location". A daily sequence that is not empty and whose entries are
    all skipped gives "No forecast data available". *)
Theorem no_data_sentinels latitude longitude trace :
  valid_coordinates latitude longitude = true ->
  (forall payload,
      payload = VNone \/ is_list payload = false \/ payload = VList [] ->
      fst (get_forecast_with (fun _ => (Ret payload, trace)) latitude longitude) =
      Ret "Unable to fetch forecast data for this location")
  /\ (forall (location : entry) rest,
        dict_find location "dailyFcst" = None
        \/ (exists forecast : entry,
              dict_find location "dailyFcst" = Some (VDict forecast)
              /\ (dict_find forecast "daily" = None
                  \/ dict_find forecast "daily" = Some (VList []))) ->
        fst (get_forecast_with
               (fun _ => (Ret (VList (VDict location :: rest)), trace))
               latitude longitude) =
        Ret "No forecast data available for this location")
  /\ (forall (location forecast : entry) rest (ds : list entry),
        dict_find location "dailyFcst" = Some (VDict forecast) ->
        dict_find forecast "daily" = Some (VList (map VDict ds)) ->
        ds <> [] ->
        filter (fun d => negb (is_night d)) ds = [] ->
        fst (get_forecast_with
               (fun _ => (Ret (VList (VDict location :: rest)), trace))
               latitude longitude) =
        Ret "No forecast data available")
  /\ "Unable to fetch forecast data for this location"
       <> "No forecast data available for this location"
  /\ "No forecast data available for this location"
       <> "No forecast data available"
  /\ "Unable to fetch forecast data for this location"
       <> "No forecast data available".
Proof.
  intros Hvalid.
  split; [| split; [| split; [| repeat split; discriminate]]].
  - intros payload Hpayload.
    rewrite (get_forecast_with_valid _ _ _ Hvalid). cbn [fst bind].
    replace (process_response payload)
      with (@Ret string "Unable to fetch forecast data for this location");
      [reflexivity |].
    unfold process_response.
    destruct Hpayload as [-> | [Hlist | ->]]; try reflexivity.
    destruct (truthy payload); cbn [negb]; [| reflexivity].
    now rewrite Hlist.
  - intros location rest Habsent.
    rewrite (get_forecast_with_valid _ _ _ Hvalid). cbn [fst bind].
    rewrite (process_response_daily location rest (VList [])); [reflexivity |].
    unfold dict_get.
    destruct Habsent as [-> | (forecast & -> & [Hd | Hd])]; cbn [py_get];
      unfold dict_get; try rewrite Hd; reflexivity.
  - intros location forecast rest ds Hloc Hfc Hne Hskip.
    rewrite (get_forecast_with_valid _ _ _ Hvalid). cbn [fst bind].
    rewrite (process_response_daily location rest (VList (map VDict ds))).
    + rewrite (truthy_entries ds Hne). cbn [negb py_iter bind].
      rewrite format_forecast_retained. unfold retained. rewrite Hskip.
      now rewrite firstn_nil.
    + unfold dict_get. rewrite Hloc. cbn [py_get]. unfold dict_get.
      now rewrite Hfc.
Qed.

(** ** No exception leaves [get_forecast] *)

Lemma handlers_return e : exists s, handlers e = Ret s.
Proof. destruct e; eexists; reflexivity. Qed.

(** Within the range of the backoff, the executor raises
    [WeatherAPIError] and nothing else. *)
Lemma while_loop_raises url retries net : forall m attempt last_error trace e,
  retries <= 1024 ->
  m = Z.to_nat (retries + 1 - attempt) ->
  fst (while_loop url retries net attempt last_error trace) = Raise e ->
  exists msg, e = WeatherAPIError msg.
Proof.
  induction m as [| m IH]; intros attempt last_error trace e Hr Hm;
    rewrite while_loop_step; settle_guard.
  - cbn. intros [= <-]. eexists; reflexivity.
  - destruct (try_attempt (net attempt)) as [v | e' | err] eqn:Htry.
    + discriminate.
    + cbn [fst]. intros [= <-].
      destruct (net attempt) as [body | status_code msg | msg | msg];
        cbn [try_attempt] in Htry; try destruct (client_error status_code);
        inversion Htry; eexists; reflexivity.
    + destruct (attempt + 1 <=? retries) eqn:Hnext.
      * apply Z.leb_le in Hnext. rewrite wait_time_finite by lia.
        apply IH; [exact Hr | lia].
      * apply IH; [exact Hr | lia].
Qed.

Lemma make_gc_request_raises url retries net e :
  retries <= 1024 ->
  fst (make_gc_request url retries net) = Raise e ->
  exists msg, e = WeatherAPIError msg.
Proof.
  intros Hr. apply (while_loop_raises url retries net _ 0 None [] e Hr eq_refl).
Qed.

Lemma MAX_RETRIES_in_range : MAX_RETRIES <= 1024.
Proof. unfold MAX_RETRIES. lia. Qed.

(** The loop builds blocks only, and a failing item raises
    [AttributeError]. *)
Lemma format_loop_blocks days max_days : forall forecasts days_added,
  Forall starts_with_LF forecasts ->
  match format_loop days max_days forecasts days_added with
  | Ret blocks => Forall starts_with_LF blocks
  | Raise (AttributeError _) => True
  | Raise _ => False
  end.
Proof.
  induction days as [| day days IH]; intros forecasts days_added Hacc.
  - exact Hacc.
  - cbn [format_loop].
    destruct day; cbn [py_get bind]; try exact I.
    destruct (eq_str (dict_get d "periodLabel" VNone) "Night"
              || (max_days <=? days_added)).
    + now apply IH.
    + apply IH. apply Forall_app. split; [exact Hacc |].
      constructor; [| constructor]. eexists. reflexivity.
Qed.

Lemma join_starts_with_LF sep block blocks :
  starts_with_LF block -> starts_with_LF (join sep (block :: blocks)).
Proof.
  intros [rest ->]. destruct blocks; eexists; reflexivity.
Qed.

Lemma starts_with_LF_no_key s :
  starts_with_LF s -> prefix MISSING_KEY s = false.
Proof. now intros [rest ->]. Qed.

Lemma format_forecast_no_key_error days max_days :
  no_key_error (format_forecast days max_days).
Proof.
  unfold format_forecast.
  pose proof (format_loop_blocks days max_days [] 0 (Forall_nil _)) as H.
  destruct (format_loop days max_days [] 0) as [blocks | e]; cbn [bind].
  - destruct blocks as [| block blocks]; [reflexivity |].
    apply starts_with_LF_no_key, join_starts_with_LF.
    now inversion H.
  - destruct e; try contradiction. exact I.
Qed.

(** Navigating the payload never raises [KeyError]: the test that the
    response is a non-empty [list] comes before [api_response[0]], and
    every other lookup is a [get] with a default. *)
Lemma process_response_no_key_error payload :
  no_key_error (process_response payload).
Proof.
  unfold process_response.
  destruct (truthy payload) eqn:Htruthy; cbn [negb]; [| reflexivity].
  destruct payload as [| b | z | f | s | l | d]; cbn [is_list negb];
    try reflexivity.
  destruct l as [| forecast_data rest]; [discriminate |].
  cbn [py_len bind].
  change (Z.of_nat (List.length (forecast_data :: rest)) =? 0) with false.
  cbn [py_item0 bind].
  destruct forecast_data as [| b | z | f | s | l | location];
    cbn [py_get bind]; try exact I.
  destruct (dict_get location "dailyFcst" (VDict []))
    as [| b | z | f | s | l | forecast]; cbn [py_get bind]; try exact I.
  destruct (truthy (dict_get forecast "daily" (VList []))); cbn [negb];
    [| reflexivity].
  destruct (dict_get forecast "daily" (VList []))
    as [| b | z | f | s | l | d]; cbn [py_iter bind]; try exact I;
    apply format_forecast_no_key_error.
Qed.

Lemma handled_no_key_error (r : result string) :
  no_key_error r ->
  exists s, try_except r handlers = Ret s /\ prefix MISSING_KEY s = false.
Proof.
  destruct r as [s | e]; cbn [try_except no_key_error].
  - intros H. now exists s.
  - destruct e; try contradiction; intros _; eexists; split; reflexivity.
Qed.

Lemma validation_no_key_error request latitude longitude :
  valid_coordinates latitude longitude = false ->
  exists s, fst (get_forecast_with request latitude longitude) = Ret s
            /\ prefix MISSING_KEY s = false.
Proof.
  unfold valid_coordinates, get_forecast_with.
  destruct (is_number latitude); cbn [negb orb andb];
    [| intros _; eexists; split; reflexivity].
  destruct (is_number longitude); cbn [negb orb andb];
    [| intros _; eexists; split; reflexivity].
  destruct (py_lt latitude (-90) || py_gt latitude 90); cbn [negb andb];
    [intros _; eexists; split; reflexivity |].
  destruct (py_lt longitude (-180) || py_gt longitude 180); cbn [negb];
    [intros _; eexists; split; reflexivity | discriminate].
Qed.

(** ** The contract of [get_forecast] *)

(** C1: whatever the coordinates are and however the network layer ends
    (a payload, [WeatherAPIError], any other exception), [get_forecast]
    returns a string and raises nothing; so it does over the executor, for
    every behaviour of the network. When the network layer raises, the
    string is the one the matching handler builds from the error text. *)
Theorem get_forecast_never_raises request latitude longitude :
  (exists s, fst (get_forecast_with request latitude longitude) = Ret s)
  /\ (forall net, exists s, fst (get_forecast net latitude longitude) = Ret s)
  /\ (forall e trace,
        valid_coordinates latitude longitude = true ->
        fst (get_forecast_with (fun _ => (Raise e, trace)) latitude longitude) =
        Ret (match e with
             | WeatherAPIError msg => "Weather API error: " ++ msg
             | KeyError msg =>
                 "Unable to process forecast data: missing key " ++ msg
             | _ => "Error processing forecast data: " ++ exn_str e
             end)).
Proof.
  assert (Hany : forall request',
             exists s, fst (get_forecast_with request' latitude longitude) = Ret s).
  { intros request'.
    destruct (valid_coordinates latitude longitude) eqn:Hvalid.
    - rewrite (get_forecast_with_valid _ _ _ Hvalid). cbn [fst].
      destruct (api_response <-
                  fst (request' (forecast_url latitude longitude)) ;;
                process_response api_response) as [s | e];
        cbn [try_except]; [now exists s | apply handlers_return].
    - destruct (validation_no_key_error request' _ _ Hvalid) as (s & Hs & _).
      now exists s. }
  split; [apply Hany |]. split; [intros net; apply Hany |].
  intros e trace Hvalid.
  rewrite (get_forecast_with_valid _ _ _ Hvalid). cbn [fst bind try_except].
  now destruct e.
Qed.

(** C9: for every payload the network layer returns, and for every
    behaviour of the network under the executor, the string that
    [get_forecast] returns does not start with "Unable to process forecast
    data: missing key"; processing a payload never raises [KeyError], so
    that handler is never entered. *)
Theorem key_error_handler_unreachable latitude longitude :
  (forall payload, no_key_error (process_response payload))
  /\ (forall payload trace,
        exists s,
          fst (get_forecast_with (fun _ => (Ret payload, trace))
                 latitude longitude) = Ret s
          /\ prefix "Unable to process forecast data: missing key" s = false)
  /\ (forall net,
        exists s,
          fst (get_forecast net latitude longitude) = Ret s
          /\ prefix "Unable to process forecast data: missing key" s = false).
Proof.
  split; [apply process_response_no_key_error |]. split.
  - intros payload trace.
    destruct (valid_coordinates latitude longitude) eqn:Hvalid;
      [| now apply validation_no_key_error].
    rewrite (get_forecast_with_valid _ _ _ Hvalid). cbn [fst bind].
    apply handled_no_key_error, process_response_no_key_error.
  - intros net. unfold get_forecast.
    destruct (valid_coordinates latitude longitude) eqn:Hvalid;
      [| now apply validation_no_key_error].
    rewrite (get_forecast_with_valid _ _ _ Hvalid). cbn [fst].
    apply handled_no_key_error.
    destruct (fst (make_gc_request (forecast_url latitude longitude)
                     MAX_RETRIES net)) as [payload | e] eqn:Hreq;
      cbn [bind].
    + apply process_response_no_key_error.
    + destruct (make_gc_request_raises _ _ _ _ MAX_RETRIES_in_range Hreq)
        as [msg ->]. exact I.
Qed.

(** ** More on the request executor *)

(** Some attempts that are retried, then one that ends the run. *)
Lemma while_loop_final url retries net r : forall k attempt last_error trace,
  attempt + Z.of_nat k <= retries ->
  attempt + Z.of_nat k <= 1024 ->
  (forall j, attempt <= j < attempt + Z.of_nat k -> retried (net j) = true) ->
  final (net (attempt + Z.of_nat k)) = Some r ->
  while_loop url retries net attempt last_error trace =
  (r, (trace ++ backoff_trace url attempt (S k))%list).
Proof.
  induction k as [| k IH]; intros attempt last_error trace Hle Hrange Hpre Hfin;
    rewrite while_loop_step; settle_guard.
  - rewrite Z.add_0_r in Hfin. unfold final in Hfin.
    destruct (try_attempt (net attempt)); inversion Hfin; reflexivity.
  - rewrite (retried_falls_through (net attempt)) by (apply Hpre; lia).
    settle_guard. rewrite wait_time_finite by lia.
    rewrite (IH (attempt + 1)).
    + rewrite backoff_trace_SS, <- !app_assoc. reflexivity.
    + lia.
    + lia.
    + intros j Hj. apply Hpre. lia.
    + now replace (attempt + 1 + Z.of_nat k) with (attempt + Z.of_nat (S k))
        by lia.
Qed.

(** Retried attempts up to the last one allowed. *)
Lemma while_loop_all_retried url retries net : forall m attempt last_error trace,
  retries <= 1024 ->
  m = Z.to_nat (retries - attempt) ->
  attempt <= retries ->
  (forall k, attempt <= k <= retries -> retried (net k) = true) ->
  while_loop url retries net attempt last_error trace =
  (Raise (WeatherAPIError
            ("Failed after " ++ str_int (retries + 1) ++ " attempts: "
             ++ error_text (net retries))),
   (trace ++ backoff_trace url attempt (S m))%list).
Proof.
  induction m as [| m IH]; intros attempt last_error trace Hr Hm Hle Hall;
    rewrite while_loop_step; settle_guard;
    rewrite (retried_falls_through (net attempt)) by (apply Hall; lia).
  - assert (attempt = retries) by lia. subst attempt.
    settle_guard. rewrite while_loop_step. settle_guard. reflexivity.
  - settle_guard. rewrite wait_time_finite by lia.
    rewrite IH by (try lia; intros k Hk; apply Hall; lia).
    rewrite backoff_trace_SS, <- !app_assoc. reflexivity.
Qed.

Lemma urls_backoff url n : forall attempt,
  Forall (eq url) (urls (backoff_trace url attempt n)).
Proof.
  induction n as [| [| n] IH]; intro attempt.
  - constructor.
  - repeat constructor.
  - rewrite backoff_trace_SS. cbn [urls]. constructor; [reflexivity | apply IH].
Qed.

Lemma backoff_seconds_power attempt :
  (backoff_seconds attempt == inject_Z (2 ^ (attempt - 1)))%Q.
Proof. unfold backoff_seconds, RETRY_DELAY. apply Qmult_1_l. Qed.

Lemma total_sleep_backoff url n : forall attempt,
  0 <= attempt ->
  (total_sleep (backoff_trace url attempt (S n))
   == inject_Z (2 ^ (attempt + Z.of_nat n) - 2 ^ attempt))%Q.
Proof.
  induction n as [| n IH]; intros attempt Ha.
  - cbn. rewrite Z.add_0_r, Z.sub_diag. reflexivity.
  - rewrite backoff_trace_SS. unfold total_sleep in *. cbn [sleeps fold_right].
    rewrite (IH (attempt + 1)) by lia. rewrite backoff_seconds_power.
    rewrite <- inject_Z_plus.
    replace (attempt + 1 - 1) with attempt by lia.
    replace (attempt + 1 + Z.of_nat n) with (attempt + Z.of_nat (S n)) by lia.
    replace (2 ^ (attempt + 1)) with (2 * 2 ^ attempt)
      by (rewrite Z.pow_add_r by lia; lia).
    apply inject_Z_injective. lia.
Qed.

(** X1: when the attempts before the [k]-th are retried and the [k]-th one
    succeeds, the run returns that body after [k + 1] requests, with the
    [k] backoff sleeps between them, and asks for nothing more. *)
Theorem success_after_retries url retries net (k : nat) body :
  Z.of_nat k <= retries ->
  Z.of_nat k <= 1024 ->
  (forall j, 0 <= j < Z.of_nat k -> retried (net j) = true) ->
  net (Z.of_nat k) = Success body ->
  make_gc_request url retries net = (Ret body, backoff_trace url 0 (S k))
  /\ requests (snd (make_gc_request url retries net)) = S k
  /\ List.length (sleeps (snd (make_gc_request url retries net))) = k.
Proof.
  intros Hk Hrange Hpre Hnet. unfold make_gc_request.
  rewrite (while_loop_final url retries net (Ret body) k 0 None []);
    [| lia | lia | intros j Hj; apply Hpre; lia
     | cbn; unfold final; now rewrite Hnet].
  cbn [app snd]. rewrite requests_backoff, sleeps_backoff_length.
  repeat split.
Qed.

(** X2: an exception that is neither a status error nor a transport error
    ends the run at once, at whatever attempt it comes: it is wrapped as
    "Unexpected error: ..." and neither a sleep nor a request follows. *)
Theorem unexpected_error_is_fatal url retries net (k : nat) msg :
  Z.of_nat k <= retries ->
  Z.of_nat k <= 1024 ->
  (forall j, 0 <= j < Z.of_nat k -> retried (net j) = true) ->
  net (Z.of_nat k) = UnexpectedError msg ->
  make_gc_request url retries net =
    (Raise (WeatherAPIError ("Unexpected error: " ++ msg)),
     backoff_trace url 0 (S k))
  /\ requests (snd (make_gc_request url retries net)) = S k.
Proof.
  intros Hk Hrange Hpre Hnet. unfold make_gc_request.
  rewrite (while_loop_final url retries net
             (Raise (WeatherAPIError ("Unexpected error: " ++ msg))) k 0 None []);
    [| lia | lia | intros j Hj; apply Hpre; lia
     | cbn; unfold final; now rewrite Hnet].
  cbn [app snd]. now rewrite requests_backoff.
Qed.

(** X3: a client error (status in [400, 500) other than 429) ends the run
    at whatever attempt it comes, also after retried ones: the run has
    made [k + 1] requests and makes no more. *)
Theorem client_error_after_retries url retries net (k : nat) status_code msg :
  Z.of_nat k <= retries ->
  Z.of_nat k <= 1024 ->
  400 <= status_code < 500 -> status_code <> 429 ->
  (forall j, 0 <= j < Z.of_nat k -> retried (net j) = true) ->
  net (Z.of_nat k) = HTTPStatusError status_code msg ->
  make_gc_request url retries net =
    (Raise (WeatherAPIError ("Client error: " ++ msg)),
     backoff_trace url 0 (S k))
  /\ requests (snd (make_gc_request url retries net)) = S k.
Proof.
  intros Hk Hk' Hrange Hne Hpre Hnet. unfold make_gc_request.
  rewrite (while_loop_final url retries net
             (Raise (WeatherAPIError ("Client error: " ++ msg))) k 0 None []);
    [| lia | lia | intros j Hj; apply Hpre; lia
     | cbn; unfold final; now rewrite Hnet, client_error_raises].
  cbn [app snd]. now rewrite requests_backoff.
Qed.

(** X4: whatever the network does, a run makes at most [retries + 1]
    requests (none when [retries] is negative), all of them to the given
    url, and sleeps once between two requests: one sleep fewer than
    requests. *)
Theorem attempts_bounded url retries net :
  let trace := snd (make_gc_request url retries net) in
  Z.of_nat (requests trace) <= Z.max 0 (retries + 1)
  /\ Forall (eq url) (urls trace)
  /\ List.length (sleeps trace) = Nat.pred (requests trace).
Proof.
  destruct (run_trace url retries net) as (n & Htr & Hle & _).
  cbn zeta. rewrite Htr, requests_backoff, sleeps_backoff_length.
  repeat split; [exact Hle | apply urls_backoff].
Qed.

(** X5: the seconds slept in a run add up to [2^(n-1) - 1] when the run
    made [n] requests, so to at most [2^retries - 1]. *)
Theorem total_backoff url retries net :
  0 <= retries ->
  let trace := snd (make_gc_request url retries net) in
  (total_sleep trace
   == inject_Z (2 ^ Z.of_nat (Nat.pred (requests trace)) - 1))%Q
  /\ (total_sleep trace <= inject_Z (2 ^ retries - 1))%Q.
Proof.
  intros Hr.
  destruct (run_trace url retries net) as (n & Htr & Hle & Hge).
  specialize (Hge Hr). cbn zeta. rewrite Htr, requests_backoff.
  destruct n as [| n]; [lia |].
  assert (Hsum := total_sleep_backoff url n 0 (Z.le_refl 0)).
  cbn [Nat.pred]. rewrite Z.add_0_l in Hsum. change (2 ^ 0) with 1 in Hsum.
  split; [exact Hsum |].
  rewrite Hsum. rewrite <- Zle_Qle.
  assert (2 ^ Z.of_nat n <= 2 ^ retries) by (apply Z.pow_le_mono_r; lia).
  lia.
Qed.

(** X6: with a negative [retries] no request is made at all, and the run
    fails with "Failed after {retries + 1} attempts: None". *)
Theorem negative_retries url retries net :
  retries < 0 ->
  make_gc_request url retries net =
  (Raise (WeatherAPIError
            ("Failed after " ++ str_int (retries + 1) ++ " attempts: None")),
   []).
Proof.
  intros Hr. unfold make_gc_request. rewrite while_loop_step. settle_guard.
  reflexivity.
Qed.

(** X7: a status error below 400 is retried like a transient one: when
    every attempt ends in a transport error or in a status error that is
    not a client error, the run makes [retries + 1] requests and reports
    the last error. *)
Theorem other_statuses_are_retried url retries net :
  0 <= retries <= 1024 ->
  (forall k, 0 <= k <= retries ->
     (exists msg, net k = RequestError msg)
     \/ (exists status_code msg,
           net k = HTTPStatusError status_code msg
           /\ (status_code < 400 \/ status_code = 429 \/ 500 <= status_code))) ->
  make_gc_request url retries net =
  (Raise (WeatherAPIError
            ("Failed after " ++ str_int (retries + 1) ++ " attempts: "
             ++ error_text (net retries))),
   backoff_trace url 0 (S (Z.to_nat retries))).
Proof.
  intros Hr Hall. unfold make_gc_request.
  rewrite (while_loop_all_retried url retries net (Z.to_nat retries) 0 None []);
    [reflexivity | lia | f_equal; lia | lia |].
  intros k Hk. destruct (Hall k Hk) as [[msg ->] | (c & msg & -> & Hc)];
    [reflexivity |].
  cbn. unfold client_error.
  destruct (400 <=? c) eqn:E1; [| reflexivity].
  destruct (c <? 500) eqn:E2; [| reflexivity].
  destruct (c =? 429) eqn:E3; [reflexivity |].
  apply Z.leb_le in E1. apply Z.ltb_lt in E2. apply Z.eqb_neq in E3. lia.
Qed.

Lemma prefix_append (s t : string) : prefix s (s ++ t) = true.
Proof.
  induction s as [| c s IH]; cbn.
  - now destruct t.
  - destruct (ascii_dec c c) as [_ | Hne]; [exact IH | now destruct Hne].
Qed.

(** X8: the executor raises [WeatherAPIError] and no other exception, and
    the text of the error says which of the three ways it failed. *)
Theorem only_weather_api_error url retries net e :
  retries <= 1024 ->
  fst (make_gc_request url retries net) = Raise e ->
  exists msg,
    e = WeatherAPIError msg
    /\ (prefix "Client error: " msg = true
        \/ prefix "Unexpected error: " msg = true
        \/ prefix "Failed after " msg = true).
Proof.
  intros Hr. unfold make_gc_request.
  generalize (@None string) at 1. generalize (@nil event). generalize 0 at 1.
  intros attempt. remember (Z.to_nat (retries + 1 - attempt)) as m eqn:Hm.
  revert attempt Hm.
  induction m as [| m IH]; intros attempt Hm trace last_error;
    rewrite while_loop_step; settle_guard.
  - cbn [fst]. intros [= <-]. eexists. split; [reflexivity |]. right. right.
    apply (prefix_append "Failed after ").
  - assert (Hnext : forall err,
               fst (if attempt + 1 <=? retries
                    then
                      match wait_time (attempt + 1) with
                      | Ret seconds =>
                          while_loop url retries net (attempt + 1) (Some err)
                            ((trace ++ [Get url]) ++ [Sleep seconds])%list
                      | Raise e' => (Raise e', (trace ++ [Get url])%list)
                      end
                    else
                      while_loop url retries net (attempt + 1) (Some err)
                        (trace ++ [Get url])%list) = Raise e ->
               exists msg,
                 e = WeatherAPIError msg
                 /\ (prefix "Client error: " msg = true
                     \/ prefix "Unexpected error: " msg = true
                     \/ prefix "Failed after " msg = true)).
    { intros err. destruct (attempt + 1 <=? retries) eqn:Hle.
      - apply Z.leb_le in Hle. rewrite wait_time_finite by lia.
        apply IH. lia.
      - apply IH. lia. }
    destruct (net attempt) as [body | status_code msg | msg | msg];
      cbn [try_attempt]; try destruct (client_error status_code);
      cbn [fst]; try discriminate; try apply Hnext;
      intros [= <-]; eexists; (split; [reflexivity |]).
    + left. apply (prefix_append "Client error: ").
    + right. left. apply (prefix_append "Unexpected error: ").
Qed.

(** ** More on the formatter *)

(** Entries that are dicts, then anything: the loop reaches the rest with
    some blocks built and some days counted. *)
Lemma format_loop_app (ds : list entry) rest max_days :
  forall forecasts days_added,
  exists forecasts' days_added',
    format_loop (map VDict ds ++ rest) max_days forecasts days_added =
    format_loop rest max_days forecasts' days_added'.
Proof.
  induction ds as [| d ds IH]; intros forecasts days_added.
  - now exists forecasts, days_added.
  - cbn [map app format_loop py_get bind].
    destruct (eq_str (dict_get d "periodLabel" VNone) "Night"
              || (max_days <=? days_added)); apply IH.
Qed.

Lemma firstn_empty {A : Type} (n : nat) (l : list A) :
  firstn n l = [] <-> n = O \/ l = [].
Proof.
  destruct n, l; cbn; split; intros H; try discriminate; auto;
    destruct H; discriminate.
Qed.

Lemma filter_empty {A : Type} (f : A -> bool) (l : list A) :
  filter f l = [] <-> Forall (fun x => f x = false) l.
Proof.
  induction l as [| x l IH]; cbn; [split; constructor |].
  destruct (f x) eqn:Hx; split; intros H.
  - discriminate.
  - inversion H; subst. congruence.
  - constructor; [exact Hx | now apply IH].
  - inversion H; subst. now apply IH.
Qed.

Lemma retained_empty (ds : list entry) max_days :
  retained ds max_days = []
  <-> max_days <= 0 \/ Forall (fun d => is_night d = true) ds.
Proof.
  unfold retained. rewrite firstn_empty, filter_empty.
  assert (Hn : Forall (fun d => negb (is_night d) = false) ds
               <-> Forall (fun d => is_night d = true) ds).
  { split; apply Forall_impl; intros d; now destruct (is_night d). }
  rewrite Hn. split; intros [H | H]; auto; left; lia.
Qed.

Lemma format_forecast_non_dict (ds : list entry) v rest max_days :
  is_dict v = false ->
  format_forecast (map VDict ds ++ v :: rest) max_days =
  Raise (AttributeError (no_get v)).
Proof.
  intros Hv. unfold format_forecast.
  destruct (format_loop_app ds (v :: rest) max_days [] 0)
    as (forecasts & days_added & ->).
  destruct v; try discriminate; reflexivity.
Qed.

(** X9: an item of the sequence that is not a dict makes the formatter
    raise [AttributeError], wherever it stands after entries that are
    dicts and whatever has been built and counted so far: also when the
    cap is already reached, since the label of every item is read before
    the cap is looked at. *)
Theorem malformed_entry_raises (ds : list entry) v rest max_days :
  is_dict v = false ->
  (forall forecasts days_added,
      format_loop (map VDict ds ++ v :: rest) max_days forecasts days_added =
      Raise (AttributeError (no_get v)))
  /\ format_forecast (map VDict ds ++ v :: rest) max_days =
     Raise (AttributeError (no_get v)).
Proof.
  intros Hv.
  assert (Hloop : forall forecasts days_added,
             format_loop (map VDict ds ++ v :: rest) max_days
               forecasts days_added =
             Raise (AttributeError (no_get v))).
  { intros forecasts days_added.
    destruct (format_loop_app ds (v :: rest) max_days forecasts days_added)
      as (forecasts' & days_added' & ->).
    destruct v; try discriminate; reflexivity. }
  split; [exact Hloop |].
  unfold format_forecast. now rewrite Hloop.
Qed.

(** X10: on a sequence of entries the formatter answers "No forecast data
    available" exactly when nothing can be shown: [max_days] is zero or
    less, or every entry is labelled ["Night"] (an empty sequence
    included). *)
Theorem sentinel_exactly_when_nothing_shown (ds : list entry) max_days :
  format_forecast (map VDict ds) max_days = Ret "No forecast data available"
  <-> max_days <= 0 \/ Forall (fun d => is_night d = true) ds.
Proof.
  rewrite format_forecast_retained, <- retained_empty.
  destruct (retained ds max_days) as [| d shown]; split; intros H;
    try reflexivity; try discriminate.
  exfalso.
  destruct (join_starts_with_LF SEPARATOR (rendered_block d)
              (map rendered_block shown)) as [tail Htail].
  { eexists. reflexivity. }
  cbn [map] in H. rewrite Htail in H. discriminate.
Qed.

(** X11: once a sequence holds [max_days] entries that are not labelled
    ["Night"], further entries appended to it change nothing in the
    output. *)
Theorem entries_beyond_cap_ignored (ds extra : list entry) max_days :
  (Z.to_nat max_days
   <= List.length (filter (fun d => negb (is_night d)) ds))%nat ->
  format_forecast (map VDict (ds ++ extra)) max_days =
  format_forecast (map VDict ds) max_days.
Proof.
  intros Hcap. rewrite !format_forecast_retained. unfold retained.
  rewrite filter_app, firstn_app.
  replace (Z.to_nat max_days
           - List.length (filter (fun d => negb (is_night d)) ds))%nat
    with O by lia.
  cbn [firstn]. now rewrite app_nil_r.
Qed.

(** ** More on [get_forecast] *)

Lemma get_forecast_with_invalid request latitude longitude :
  valid_coordinates latitude longitude = false ->
  snd (get_forecast_with request latitude longitude) = []
  /\ exists s,
       fst (get_forecast_with request latitude longitude) = Ret s
       /\ In s ["Error: Latitude and longitude must be numbers";
                "Error: Latitude must be between -90 and 90 degrees";
                "Error: Longitude must be between -180 and 180 degrees"].
Proof.
  unfold valid_coordinates, get_forecast_with.
  destruct (is_number latitude); cbn [negb orb andb];
    [| intros _; split; [| eexists; split]; [reflexivity .. | cbn; auto]].
  destruct (is_number longitude); cbn [negb orb andb];
    [| intros _; split; [| eexists; split]; [reflexivity .. | cbn; auto]].
  destruct (py_lt latitude (-90) || py_gt latitude 90); cbn [negb andb];
    [intros _; split; [| eexists; split]; [reflexivity .. | cbn; auto] |].
  destruct (py_lt longitude (-180) || py_gt longitude 180); cbn [negb];
    [intros _; split; [| eexists; split]; [reflexivity .. | cbn; auto]
    | discriminate].
Qed.

(** X12: [get_forecast] asks the network exactly when the coordinates pass
    validation, and then at least once and at most three times; every
    request goes to the forecast url of the coordinates, and the sleeps of
    a call add up to at most three seconds. *)
Theorem requests_of_a_call net latitude longitude :
  let trace := snd (get_forecast net latitude longitude) in
  (if valid_coordinates latitude longitude
   then (1 <= requests trace <= 3)%nat
   else trace = [])
  /\ Forall (eq (forecast_url latitude longitude)) (urls trace)
  /\ (total_sleep trace <= 3)%Q.
Proof.
  cbn zeta. unfold get_forecast.
  destruct (valid_coordinates latitude longitude) eqn:Hvalid.
  - rewrite (get_forecast_with_valid _ _ _ Hvalid). cbn [snd].
    pose proof (run_trace (forecast_url latitude longitude)
                  MAX_RETRIES net) as (n & Htr & Hle & Hge).
    rewrite Htr, requests_backoff. unfold MAX_RETRIES in Hle, Hge.
    specialize (Hge ltac:(lia)).
    split; [lia |]. split; [apply urls_backoff |].
    destruct n as [| n]; [lia |].
    rewrite (total_sleep_backoff _ n 0 (Z.le_refl 0)).
    change (3%Q) with (inject_Z 3). rewrite <- Zle_Qle.
    assert (2 ^ Z.of_nat n <= 2 ^ 2) by (apply Z.pow_le_mono_r; lia).
    cbn in *. lia.
  - destruct (get_forecast_with_invalid
                (fun url => make_gc_request url MAX_RETRIES net) _ _ Hvalid)
      as (-> & _).
    split; [reflexivity |]. split; [constructor | discriminate].
Qed.

(** X13: when the executor fails, [get_forecast] returns "Weather API
    error: " followed by the text of the executor's error, and has made
    the requests and sleeps of that run. *)
Theorem network_failure_reported net latitude longitude e :
  valid_coordinates latitude longitude = true ->
  fst (make_gc_request (forecast_url latitude longitude) MAX_RETRIES net) =
    Raise e ->
  get_forecast net latitude longitude =
  (Ret ("Weather API error: " ++ exn_str e),
   snd (make_gc_request (forecast_url latitude longitude) MAX_RETRIES net)).
Proof.
  intros Hvalid Hfail. unfold get_forecast.
  rewrite (get_forecast_with_valid _ _ _ Hvalid). rewrite Hfail.
  destruct (make_gc_request_raises _ _ _ _ MAX_RETRIES_in_range Hfail)
    as [msg ->].
  reflexivity.
Qed.

(** X14: when the three attempts of a call all end in retried outcomes,
    [get_forecast] returns "Weather API error: Failed after 3 attempts: "
    with the error of the third attempt, after three requests with sleeps
    of one and two seconds between them. *)
Theorem three_failures_reported net latitude longitude :
  valid_coordinates latitude longitude = true ->
  (forall k, 0 <= k <= 2 -> retried (net k) = true) ->
  get_forecast net latitude longitude =
  (Ret ("Weather API error: Failed after 3 attempts: " ++ error_text (net 2)),
   [Get (forecast_url latitude longitude); Sleep 1;
    Get (forecast_url latitude longitude); Sleep 2;
    Get (forecast_url latitude longitude)]).
Proof.
  intros Hvalid Hall. unfold get_forecast.
  rewrite (get_forecast_with_valid _ _ _ Hvalid). unfold make_gc_request.
  rewrite (while_loop_all_retried _ MAX_RETRIES net 2%nat 0 None [])
    by (try reflexivity; unfold MAX_RETRIES; try lia; exact Hall).
  reflexivity.
Qed.

(** X15: retried attempts leave no mark on the answer: when a payload
    comes after them, within the three attempts, [get_forecast] returns
    what it returns for that payload at the first attempt. *)
Theorem retries_do_not_show net latitude longitude (k : nat) payload :
  (k <= 2)%nat ->
  (forall j, 0 <= j < Z.of_nat k -> retried (net j) = true) ->
  net (Z.of_nat k) = Success payload ->
  fst (get_forecast net latitude longitude) =
  fst (get_forecast (fun _ => Success payload) latitude longitude).
Proof.
  intros Hk Hpre Hnet. unfold get_forecast.
  destruct (valid_coordinates latitude longitude) eqn:Hvalid.
  - rewrite !(get_forecast_with_valid _ _ _ Hvalid). cbn [fst].
    unfold make_gc_request.
    rewrite (while_loop_final _ MAX_RETRIES net (Ret payload) k 0 None []);
      [| unfold MAX_RETRIES; lia | lia | intros j Hj; apply Hpre; lia
       | cbn; unfold final; now rewrite Hnet].
    rewrite (while_loop_final _ MAX_RETRIES (fun _ => Success payload)
               (Ret payload) O 0 None []);
      [reflexivity | unfold MAX_RETRIES; lia | lia | intros j Hj; lia
      | reflexivity].
  - unfold valid_coordinates in Hvalid. unfold get_forecast_with.
    destruct (is_number latitude); cbn [negb orb andb] in *; [| reflexivity].
    destruct (is_number longitude); cbn [negb orb andb] in *; [| reflexivity].
    destruct (py_lt latitude (-90) || py_gt latitude 90);
      cbn [negb andb] in *; [reflexivity |].
    destruct (py_lt longitude (-180) || py_gt longitude 180);
      cbn [negb] in *; [reflexivity | discriminate].
Qed.

(** A payload returned at once, for coordinates that pass validation. *)
Lemma get_forecast_with_payload latitude longitude payload trace :
  valid_coordinates latitude longitude = true ->
  fst (get_forecast_with (fun _ => (Ret payload, trace)) latitude longitude) =
  try_except (process_response payload) handlers.
Proof.
  intros Hvalid. now rewrite (get_forecast_with_valid _ _ _ Hvalid).
Qed.

(** X16: the forecast comes from the first location of the payload alone:
    when its daily sequence holds entries of which some can be shown, the
    answer is their blocks, five at most, joined by the separator,
    whatever the other locations and the other keys are. *)
Theorem forecast_of_first_location latitude longitude trace
    (location forecast : entry) rest (ds : list entry) :
  valid_coordinates latitude longitude = true ->
  dict_find location "dailyFcst" = Some (VDict forecast) ->
  dict_find forecast "daily" = Some (VList (map VDict ds)) ->
  retained ds 5 <> [] ->
  fst (get_forecast_with
         (fun _ => (Ret (VList (VDict location :: rest)), trace))
         latitude longitude) =
    Ret (join SEPARATOR (map rendered_block (retained ds 5)))
  /\ (List.length (retained ds 5) <= 5)%nat.
Proof.
  intros Hvalid Hloc Hfc Hshown. split.
  - rewrite (get_forecast_with_payload _ _ _ _ Hvalid).
    rewrite (process_response_daily location rest (VList (map VDict ds)))
      by (unfold dict_get; rewrite Hloc; cbn [py_get]; unfold dict_get;
          now rewrite Hfc).
    assert (Hne : ds <> []) by (intros ->; now apply Hshown).
    rewrite (truthy_entries ds Hne). cbn [negb py_iter bind].
    rewrite format_forecast_retained.
    now destruct (retained ds 5).
  - unfold retained. apply firstn_le_length.
Qed.

(** X17: a payload whose first location is not a dict, or whose
    [dailyFcst] is there but is not a dict (a JSON null, say), is answered
    with "Error processing forecast data: " and the text of the
    [AttributeError], which names the type met. *)
Theorem malformed_location_reported latitude longitude trace :
  valid_coordinates latitude longitude = true ->
  (forall v rest,
      is_dict v = false ->
      fst (get_forecast_with (fun _ => (Ret (VList (v :: rest)), trace))
             latitude longitude) =
      Ret ("Error processing forecast data: " ++ no_get v))
  /\ (forall (location : entry) rest v,
        dict_find location "dailyFcst" = Some v ->
        is_dict v = false ->
        fst (get_forecast_with
               (fun _ => (Ret (VList (VDict location :: rest)), trace))
               latitude longitude) =
        Ret ("Error processing forecast data: " ++ no_get v)).
Proof.
  intros Hvalid. split.
  - intros v rest Hv. rewrite (get_forecast_with_payload _ _ _ _ Hvalid).
    unfold process_response. cbn [truthy negb is_list py_len bind].
    change (Z.of_nat (List.length (v :: rest)) =? 0) with false.
    cbn [py_item0 bind]. destruct v; try discriminate; reflexivity.
  - intros location rest v Hloc Hv.
    rewrite (get_forecast_with_payload _ _ _ _ Hvalid).
    unfold process_response. cbn [truthy negb is_list py_len bind].
    change (Z.of_nat (List.length (VDict location :: rest)) =? 0) with false.
    cbn [py_item0 py_get bind]. unfold dict_get at 1. rewrite Hloc.
    destruct v; try discriminate; reflexivity.
Qed.

(** X18: a daily value that is not a list of dicts is answered with an
    error text: a number or [True] is not iterable; a non-empty string or
    dict is walked through its characters or keys, which are strings
    without [get]; and in a list, the first item that is not a dict
    decides. *)
Theorem malformed_daily_reported latitude longitude trace
    (location forecast : entry) rest daily :
  valid_coordinates latitude longitude = true ->
  dict_find location "dailyFcst" = Some (VDict forecast) ->
  dict_find forecast "daily" = Some daily ->
  truthy daily = true ->
  let answer :=
    fst (get_forecast_with
           (fun _ => (Ret (VList (VDict location :: rest)), trace))
           latitude longitude) in
  match daily with
  | VBool _ | VInt _ | VFloat _ =>
      answer = Ret ("Error processing forecast data: " ++ not_iterable daily)
  | VStr _ | VDict _ =>
      answer = Ret "Error processing forecast data: 'str' object has no attribute 'get'"
  | VList items =>
      forall (ds : list entry) v others,
        items = (map VDict ds ++ v :: others)%list ->
        is_dict v = false ->
        answer = Ret ("Error processing forecast data: " ++ no_get v)
  | VNone => True
  end.
Proof.
  intros Hvalid Hloc Hfc Htruthy. cbn zeta.
  rewrite (get_forecast_with_payload _ _ _ _ Hvalid).
  rewrite (process_response_daily location rest daily)
    by (unfold dict_get; rewrite Hloc; cbn [py_get]; unfold dict_get;
        now rewrite Hfc).
  rewrite Htruthy. cbn [negb].
  destruct daily as [| b | z | f | s | items | d]; cbn [py_iter bind].
  - exact I.
  - reflexivity.
  - reflexivity.
  - reflexivity.
  - destruct s as [| c s]; [discriminate | reflexivity].
  - intros ds v others -> Hv. now rewrite (format_forecast_non_dict ds v others 5 Hv).
  - destruct d as [| [key v] d]; [discriminate | reflexivity].
Qed.

(** X19: a NaN is let through by both range checks, so a request is made
    for it; an infinite latitude or longitude is turned down like any
    other value out of range. *)
Theorem nan_and_infinity net latitude longitude negative :
  is_number latitude = true -> is_number longitude = true ->
  (py_lt longitude (-180) = false -> py_gt longitude 180 = false ->
   (1 <= requests (snd (get_forecast net (VFloat S754_nan) longitude)))%nat)
  /\ (py_lt latitude (-90) = false -> py_gt latitude 90 = false ->
      (1 <= requests (snd (get_forecast net latitude (VFloat S754_nan))))%nat
      /\ get_forecast net latitude (VFloat (S754_infinity negative)) =
         (Ret "Error: Longitude must be between -180 and 180 degrees", []))
  /\ get_forecast net (VFloat (S754_infinity negative)) longitude =
     (Ret "Error: Latitude must be between -90 and 90 degrees", []).
Proof.
  intros Hlat Hlon.
  assert (Hreq : forall lat lon,
             valid_coordinates lat lon = true ->
             (1 <= requests (snd (get_forecast net lat lon)))%nat).
  { intros lat lon Hvalid. unfold get_forecast.
    rewrite (get_forecast_with_valid _ _ _ Hvalid). cbn [snd].
    destruct (run_trace (forecast_url lat lon) MAX_RETRIES net)
      as (n & Htr & _ & Hge).
    rewrite Htr, requests_backoff. apply Hge. unfold MAX_RETRIES. lia. }
  split; [| split].
  - intros Hlo Hhi. apply Hreq. unfold valid_coordinates.
    rewrite Hlon, Hlo, Hhi. reflexivity.
  - intros Hlo Hhi. split.
    + apply Hreq. unfold valid_coordinates. rewrite Hlat, Hlo, Hhi. reflexivity.
    + unfold get_forecast, get_forecast_with. rewrite Hlat, Hlo, Hhi.
      now destruct negative.
  - unfold get_forecast, get_forecast_with. rewrite Hlon.
    now destruct negative.
Qed.

(** X20: [True] and [False] count as numbers (1 and 0), so they pass
    validation, and the request goes to a url that spells them out. *)
Theorem bool_coordinates net (b1 b2 : bool) :
  exists rest,
    snd (get_forecast net (VBool b1) (VBool b2)) =
    Get (GC_API_BASE ++ "/api/app/en/Location/"
         ++ (if b1 then "True" else "False") ++ ","
         ++ (if b2 then "True" else "False") ++ "?type=city") :: rest.
Proof.
  unfold get_forecast.
  rewrite get_forecast_with_valid by (now destruct b1, b2). cbn [snd].
  destruct (run_trace (forecast_url (VBool b1) (VBool b2)) MAX_RETRIES net)
    as (n & Htr & _ & Hge).
  rewrite Htr. specialize (Hge ltac:(unfold MAX_RETRIES; lia)).
  destruct n as [| [| n]]; [lia | |]; eexists;
    destruct b1, b2; reflexivity.
Qed.

(** What processing a payload gives: one of three fixed texts or a
    forecast, or one of the two errors of navigation. *)
Lemma format_loop_outcome days max_days : forall forecasts days_added,
  Forall starts_with_LF forecasts ->
  match format_loop days max_days forecasts days_added with
  | Ret blocks => Forall starts_with_LF blocks
  | Raise e => exists v, e = AttributeError (no_get v)
  end.
Proof.
  induction days as [| day days IH]; intros forecasts days_added Hacc.
  - exact Hacc.
  - cbn [format_loop].
    destruct day; cbn [py_get bind];
      try (eexists; reflexivity).
    destruct (eq_str (dict_get d "periodLabel" VNone) "Night"
              || (max_days <=? days_added)).
    + now apply IH.
    + apply IH. apply Forall_app. split; [exact Hacc |].
      constructor; [| constructor]. eexists. reflexivity.
Qed.

Lemma format_forecast_outcome days max_days :
  match format_forecast days max_days with
  | Ret s => s = "No forecast data available" \/ starts_with_LF s
  | Raise e => exists v, e = AttributeError (no_get v)
  end.
Proof.
  unfold format_forecast.
  pose proof (format_loop_outcome days max_days [] 0 (Forall_nil _)) as H.
  destruct (format_loop days max_days [] 0) as [blocks | e]; cbn [bind].
  - destruct blocks as [| block blocks]; [now left |].
    right. apply join_starts_with_LF. now inversion H.
  - exact H.
Qed.

Lemma process_response_outcome payload :
  match process_response payload with
  | Ret s =>
      In s ["Unable to fetch forecast data for this location";
            "No forecast data available for this location";
            "No forecast data available"]
      \/ starts_with_LF s
  | Raise e =>
      exists v, e = AttributeError (no_get v) \/ e = TypeError (not_iterable v)
  end.
Proof.
  assert (Hfmt : forall days,
             match format_forecast days 5 with
             | Ret s =>
                 In s ["Unable to fetch forecast data for this location";
                       "No forecast data available for this location";
                       "No forecast data available"]
                 \/ starts_with_LF s
             | Raise e =>
                 exists v,
                   e = AttributeError (no_get v) \/ e = TypeError (not_iterable v)
             end).
  { intros days. pose proof (format_forecast_outcome days 5) as H.
    destruct (format_forecast days 5) as [s | e].
    - destruct H as [-> | H]; [left; cbn; auto | now right].
    - destruct H as [v ->]. exists v. now left. }
  unfold process_response.
  destruct (truthy payload) eqn:Htruthy; cbn [negb]; [| left; cbn; auto].
  destruct payload as [| b | z | f | s | l | d]; cbn [is_list negb];
    try (left; cbn; now auto).
  destruct l as [| forecast_data rest]; [discriminate |].
  cbn [py_len bind].
  change (Z.of_nat (List.length (forecast_data :: rest)) =? 0) with false.
  cbn [py_item0 bind].
  destruct forecast_data as [| b | z | f | s | l | location];
    cbn [py_get bind]; try (eexists; left; reflexivity).
  destruct (dict_get location "dailyFcst" (VDict []))
    as [| b | z | f | s | l | forecast]; cbn [py_get bind];
    try (eexists; left; reflexivity).
  destruct (truthy (dict_get forecast "daily" (VList []))); cbn [negb];
    [| left; cbn; auto].
  destruct (dict_get forecast "daily" (VList []))
    as [| b | z | f | s | l | d]; cbn [py_iter bind];
    try (eexists; right; reflexivity); apply Hfmt.
Qed.

(** X21: every answer of [get_forecast] is of one of a few kinds: one of
    the six fixed messages, "Weather API error: ...", "Error processing
    forecast data: " with the text of a missing [get] or of a value that
    is not iterable, or a forecast, which starts with a line feed. *)
Theorem answers_of_get_forecast net latitude longitude :
  exists s,
    fst (get_forecast net latitude longitude) = Ret s /\ output_kind s.
Proof.
  unfold get_forecast, output_kind.
  destruct (valid_coordinates latitude longitude) eqn:Hvalid.
  - rewrite (get_forecast_with_valid _ _ _ Hvalid). cbn [fst].
    destruct (fst (make_gc_request (forecast_url latitude longitude)
                     MAX_RETRIES net)) as [payload | e] eqn:Hreq; cbn [bind].
    + pose proof (process_response_outcome payload) as H.
      destruct (process_response payload) as [s | e]; cbn [try_except].
      * exists s. split; [reflexivity |].
        destruct H as [H | H]; [left | now repeat right].
        cbn in H |- *. intuition.
      * destruct H as [v [-> | ->]]; eexists; (split; [reflexivity |]).
        -- right. right. left. now exists v.
        -- right. right. right. left. now exists v.
    + destruct (make_gc_request_raises _ _ _ _ MAX_RETRIES_in_range Hreq)
        as [msg ->].
      eexists. split; [reflexivity |]. right. left. now exists msg.
  - destruct (get_forecast_with_invalid
                (fun url => make_gc_request url MAX_RETRIES net) _ _ Hvalid)
      as (_ & s & Hs & Hin).
    exists s. split; [exact Hs |]. left. cbn in Hin |- *. intuition.
Qed.

End Weather.

(** ** Concrete runs *)

Lemma client_error_fails_immediately_witness :
  make_gc_request "u" MAX_RETRIES (codes [404]) =
    (Raise (WeatherAPIError "Client error: status 404"), [Get "u"])
  /\ requests (snd (make_gc_request "u" MAX_RETRIES (codes [404]))) = 1%nat
  /\ sleeps (snd (make_gc_request "u" MAX_RETRIES (codes [404]))) = [].
Proof.
  apply (client_error_fails_immediately "u" MAX_RETRIES (codes [404]) 404
           "status 404").
  - unfold MAX_RETRIES. lia.
  - lia.
  - lia.
  - reflexivity.
Defined.

Lemma overflow_before_retries_exhausted_witness :
  let net (_ : Z) := HTTPStatusError 503 "Server error '503 Service Unavailable'" in
  make_gc_request "u" 1025 net =
    (Raise (OverflowError "int too large to convert to float"),
     backoff_trace "u" 0 1025)
  /\ requests (snd (make_gc_request "u" 1025 net)) = 1025%nat
  /\ Z.of_nat (requests (snd (make_gc_request "u" 1025 net))) < 1025 + 1
  /\ (forall msg,
        fst (make_gc_request "u" 1025 net) <> Raise (WeatherAPIError msg)).
Proof.
  intros net.
  apply (overflow_before_retries_exhausted "u" 1025 net).
  - lia.
  - intros k Hk. cbn. right. lia.
Defined.

Lemma backoff_delay_witness :
  exists pre post,
    snd (make_gc_request "u" MAX_RETRIES (codes [500; 500; 200])) =
      (pre ++ Get "u"
           :: Sleep (RETRY_DELAY * inject_Z (2 ^ (Z.of_nat 2 - 1)))%Q
           :: Get "u" :: post)%list
    /\ requests pre = (2 - 1)%nat
    /\ List.length (sleeps pre) = (2 - 1)%nat.
Proof.
  apply (proj1 (backoff_delay "u" MAX_RETRIES (codes [500; 500; 200])) 2%nat).
  - lia.
  - vm_compute. lia.
Defined.


Lemma get_forecast_never_raises_witness :
  fst (get_forecast_with sample_format
         (fun _ => (Raise (WeatherAPIError "API error"), []))
         (VFloat float_45) (VFloat float_m75)) =
  Ret "Weather API error: API error".
Proof.
  apply (proj2 (proj2 (get_forecast_never_raises sample_format
                         (fun _ => (Raise (WeatherAPIError "API error"), []))
                         (VFloat float_45) (VFloat float_m75)))
           (WeatherAPIError "API error") []).
  reflexivity.
Defined.


Lemma validation_first_failure_wins_witness :
  let request url :=
    make_gc_request url MAX_RETRIES (fun _ => Success SAMPLE_API_RESPONSE) in
  get_forecast_with sample_format request (VStr "invalid") (VFloat float_0) =
    (Ret "Error: Latitude and longitude must be numbers", [])
  /\ get_forecast_with sample_format request (VFloat float_100) (VFloat float_200) =
    (Ret "Error: Latitude must be between -90 and 90 degrees", [])
  /\ get_forecast_with sample_format request (VFloat float_0) (VFloat float_200) =
    (Ret "Error: Longitude must be between -180 and 180 degrees", [])
  /\ snd (get_forecast_with sample_format request
            (VFloat (float_90 true)) (VInt 180)) =
    [Get "https://weather.gc.ca/api/app/en/Location/-90.0,180?type=city"].
Proof.
  intros request.
  pose proof (fun latitude longitude =>
                validation_first_failure_wins sample_format request
                  latitude longitude) as H.
  split; [| split; [| split]].
  - apply (proj1 (H (VStr "invalid") (VFloat float_0))).
    left. reflexivity.
  - apply (proj1 (proj2 (H (VFloat float_100) (VFloat float_200)))).
    + reflexivity.
    + reflexivity.
    + right. reflexivity.
  - apply (proj1 (proj2 (proj2 (H (VFloat float_0) (VFloat float_200))))).
    + reflexivity.
    + reflexivity.
    + reflexivity.
    + reflexivity.
    + right. reflexivity.
  - rewrite (proj2 (proj2 (proj2 (H (VFloat (float_90 true)) (VInt 180))))).
    + reflexivity.
    + cbn. right. right. left. reflexivity.
    + cbn. right. left. reflexivity.
Defined.

Lemma no_data_sentinels_witness :
  fst (get_forecast_with sample_format (fun _ => (Ret (VList []), []))
         (VFloat float_45) (VFloat float_m75)) =
    Ret "Unable to fetch forecast data for this location"
  /\ fst (get_forecast_with sample_format
            (fun _ => (Ret (VList [VDict [("displayName", VStr "Test City")]]), []))
            (VFloat float_45) (VFloat float_m75)) =
    Ret "No forecast data available for this location"
  /\ fst (get_forecast_with sample_format
            (fun _ =>
               (Ret (VList [VDict [("dailyFcst",
                                    VDict [("daily",
                                            VList (map VDict
                                                     [sample_entry "2023-01-01"
                                                        "Night" "Clear"]))])]]),
                []))
            (VFloat float_45) (VFloat float_m75)) =
    Ret "No forecast data available".
Proof.
  pose proof (no_data_sentinels sample_format (VFloat float_45)
                (VFloat float_m75) [] eq_refl) as (H1 & H2 & H3 & _).
  split; [| split].
  - apply H1. right. right. reflexivity.
  - apply H2. left. reflexivity.
  - apply (H3 [("dailyFcst",
                VDict [("daily",
                        VList (map VDict
                                 [sample_entry "2023-01-01" "Night" "Clear"]))])]
             [("daily",
               VList (map VDict [sample_entry "2023-01-01" "Night" "Clear"]))]
             [] [sample_entry "2023-01-01" "Night" "Clear"]).
    + reflexivity.
    + reflexivity.
    + discriminate.
    + reflexivity.
Defined.

(** The run of the test suite: the sample payload at (45.0, -75.0). *)
Example get_forecast_sample :
  get_forecast sample_format (fun _ => Success SAMPLE_API_RESPONSE)
    (VFloat float_45) (VFloat float_m75) =
  (Ret (LF ++ "2023-01-01:" ++ LF ++ "Forecast: Sunny with cloudy periods" ++ LF
        ++ LF ++ "---" ++ LF
        ++ LF ++ "2023-01-02:" ++ LF ++ "Forecast: Cloudy with chance of rain" ++ LF
        ++ LF ++ "---" ++ LF
        ++ LF ++ "2023-01-03:" ++ LF ++ "Forecast: Sunny" ++ LF),
   [Get "https://weather.gc.ca/api/app/en/Location/45.0,-75.0?type=city"]).
Proof. reflexivity. Qed.

(** Two transient failures, then a success: two sleeps, of 1 s and 2 s. *)
Example make_gc_request_500_500_200 :
  make_gc_request "u" MAX_RETRIES (codes [500; 500; 200]) =
  (Ret (VList []), [Get "u"; Sleep 1; Get "u"; Sleep 2; Get "u"]).
Proof. reflexivity. Qed.

(** With no attempt allowed, no request is made. *)
Example make_gc_request_negative_retries :
  make_gc_request "u" (-1) (codes [200]) =
  (Raise (WeatherAPIError "Failed after 0 attempts: None"), []).
Proof. reflexivity. Qed.

(** A [dailyFcst] that is [null] is not a [dict]: the lookup under it
    raises, and the last handler reports it. *)
Example get_forecast_null_dailyFcst :
  fst (get_forecast sample_format
         (fun _ => Success (VList [VDict [("dailyFcst", VNone)]]))
         (VFloat float_45) (VFloat float_m75)) =
  Ret "Error processing forecast data: 'NoneType' object has no attribute 'get'".
Proof. reflexivity. Qed.

(** Seven entries of the day: the first five are shown. *)
Example format_forecast_cap :
  format_forecast sample_format
    (map VDict (map (fun date => sample_entry date "Day" "Sunny")
                  ["1"; "2"; "3"; "4"; "5"; "6"; "7"])) 5 =
  format_forecast sample_format
    (map VDict (map (fun date => sample_entry date "Day" "Sunny")
                  ["1"; "2"; "3"; "4"; "5"])) 5.
Proof. reflexivity. Qed.

(** The float constants are the numbers they are named after, and the next
    float above 90.0 is already out of range. *)
Example float_bounds :
  py_lt (VFloat (float_90 false)) 90 = false
  /\ py_gt (VFloat (float_90 false)) 90 = false
  /\ py_lt (VFloat (float_180 true)) (-180) = false
  /\ py_gt (VFloat (float_180 true)) (-180) = false
  /\ py_gt (VFloat (S754_finite false 6333186975989761 (-46))) 90 = true
  /\ fst (get_forecast sample_format (fun _ => Success SAMPLE_API_RESPONSE)
            (VFloat (S754_finite false 6333186975989761 (-46)))
            (VFloat float_0)) =
     Ret "Error: Latitude must be between -90 and 90 degrees".
Proof. repeat split. Qed.

(** With both coordinates out of range the latitude is reported; with a
    string for the longitude the type error comes first. *)
Example get_forecast_first_failure :
  get_forecast sample_format (fun _ => Success SAMPLE_API_RESPONSE)
    (VInt 100) (VInt 200) =
    (Ret "Error: Latitude must be between -90 and 90 degrees", [])
  /\ get_forecast sample_format (fun _ => Success SAMPLE_API_RESPONSE)
       (VInt 100) (VStr "200") =
    (Ret "Error: Latitude and longitude must be numbers", []).
Proof. split; reflexivity. Qed.

(** ** Concrete runs of the further properties *)

Lemma success_after_retries_witness :
  make_gc_request "u" MAX_RETRIES (codes [500; 500; 200]) =
    (Ret (VList []), backoff_trace "u" 0 3)
  /\ requests (snd (make_gc_request "u" MAX_RETRIES (codes [500; 500; 200])))
     = 3%nat
  /\ List.length
       (sleeps (snd (make_gc_request "u" MAX_RETRIES (codes [500; 500; 200]))))
     = 2%nat.
Proof.
  apply (success_after_retries "u" MAX_RETRIES (codes [500; 500; 200]) 2
           (VList [])).
  - unfold MAX_RETRIES. lia.
  - lia.
  - intros j Hj. assert (j = 0 \/ j = 1) as [-> | ->] by lia; reflexivity.
  - reflexivity.
Defined.

Lemma unexpected_error_is_fatal_witness :
  let net k := if k =? 0 then RequestError "timeout" else UnexpectedError "boom" in
  make_gc_request "u" MAX_RETRIES net =
    (Raise (WeatherAPIError "Unexpected error: boom"), backoff_trace "u" 0 2)
  /\ requests (snd (make_gc_request "u" MAX_RETRIES net)) = 2%nat.
Proof.
  intros net.
  apply (unexpected_error_is_fatal "u" MAX_RETRIES net 1 "boom").
  - unfold MAX_RETRIES. lia.
  - lia.
  - intros j Hj. assert (j = 0) as -> by lia. reflexivity.
  - reflexivity.
Defined.

Lemma client_error_after_retries_witness :
  make_gc_request "u" MAX_RETRIES (codes [503; 404]) =
    (Raise (WeatherAPIError "Client error: status 404"), backoff_trace "u" 0 2)
  /\ requests (snd (make_gc_request "u" MAX_RETRIES (codes [503; 404]))) = 2%nat.
Proof.
  apply (client_error_after_retries "u" MAX_RETRIES (codes [503; 404]) 1 404
           "status 404").
  - unfold MAX_RETRIES. lia.
  - lia.
  - lia.
  - lia.
  - intros j Hj. assert (j = 0) as -> by lia. reflexivity.
  - reflexivity.
Defined.

Lemma total_backoff_witness :
  let trace := snd (make_gc_request "u" 2 (codes [500; 500; 200])) in
  (total_sleep trace == inject_Z (2 ^ Z.of_nat (Nat.pred (requests trace)) - 1))%Q
  /\ (total_sleep trace <= inject_Z (2 ^ 2 - 1))%Q.
Proof.
  apply (total_backoff "u" 2 (codes [500; 500; 200])). lia.
Defined.

Lemma negative_retries_witness :
  make_gc_request "u" (-1) (codes [200]) =
  (Raise (WeatherAPIError "Failed after 0 attempts: None"), []).
Proof.
  apply (negative_retries "u" (-1) (codes [200])). lia.
Defined.

Lemma other_statuses_are_retried_witness :
  make_gc_request "u" 2 (codes [301; 302; 429]) =
  (Raise (WeatherAPIError "Failed after 3 attempts: status 429"),
   backoff_trace "u" 0 3).
Proof.
  apply (other_statuses_are_retried "u" 2 (codes [301; 302; 429])).
  - lia.
  - intros k Hk. right.
    assert (k = 0 \/ k = 1 \/ k = 2) as [-> | [-> | ->]] by lia.
    + exists 301, "status 301". split; [reflexivity | lia].
    + exists 302, "status 302". split; [reflexivity | lia].
    + exists 429, "status 429". split; [reflexivity | lia].
Defined.

Lemma only_weather_api_error_witness :
  exists msg,
    WeatherAPIError "Client error: status 404" = WeatherAPIError msg
    /\ (prefix "Client error: " msg = true
        \/ prefix "Unexpected error: " msg = true
        \/ prefix "Failed after " msg = true).
Proof.
  apply (only_weather_api_error "u" 2 (codes [404])
           (WeatherAPIError "Client error: status 404")).
  - lia.
  - reflexivity.
Defined.

Lemma malformed_entry_raises_witness :
  format_forecast sample_format
    (map VDict (map (fun date => sample_entry date "Day" "Sunny")
                  ["1"; "2"; "3"; "4"; "5"])
     ++ [VStr "oops"]) 5 =
  Raise (AttributeError "'str' object has no attribute 'get'").
Proof.
  apply (proj2 (malformed_entry_raises sample_format
                  (map (fun date => sample_entry date "Day" "Sunny")
                     ["1"; "2"; "3"; "4"; "5"])
                  (VStr "oops") [] 5 eq_refl)).
Defined.

Lemma sentinel_exactly_when_nothing_shown_witness :
  format_forecast sample_format
    (map VDict [sample_entry "2023-01-01" "Night" "Clear"]) 5 =
  Ret "No forecast data available".
Proof.
  apply (proj2 (sentinel_exactly_when_nothing_shown sample_format
                  [sample_entry "2023-01-01" "Night" "Clear"] 5)).
  right. repeat constructor.
Defined.

Lemma entries_beyond_cap_ignored_witness :
  format_forecast sample_format
    (map VDict (SAMPLE_DAILY ++ [sample_entry "2023-01-04" "Day" "Rain"])) 3 =
  format_forecast sample_format (map VDict SAMPLE_DAILY) 3.
Proof.
  apply (entries_beyond_cap_ignored sample_format SAMPLE_DAILY
           [sample_entry "2023-01-04" "Day" "Rain"] 3).
  cbn. lia.
Defined.

Lemma network_failure_reported_witness :
  get_forecast sample_format (codes [404]) (VFloat float_45) (VFloat float_m75) =
  (Ret "Weather API error: Client error: status 404",
   [Get "https://weather.gc.ca/api/app/en/Location/45.0,-75.0?type=city"]).
Proof.
  apply (network_failure_reported sample_format (codes [404])
           (VFloat float_45) (VFloat float_m75)
           (WeatherAPIError "Client error: status 404")).
  - reflexivity.
  - reflexivity.
Defined.

Lemma three_failures_reported_witness :
  fst (get_forecast sample_format (codes [503; 503; 503])
         (VFloat float_45) (VFloat float_m75)) =
  Ret "Weather API error: Failed after 3 attempts: status 503".
Proof.
  rewrite (three_failures_reported sample_format (codes [503; 503; 503])
             (VFloat float_45) (VFloat float_m75)).
  - reflexivity.
  - reflexivity.
  - intros k Hk.
    assert (k = 0 \/ k = 1 \/ k = 2) as [-> | [-> | ->]] by lia; reflexivity.
Defined.

Lemma retries_do_not_show_witness :
  fst (get_forecast sample_format (codes [500; 500; 200])
         (VFloat float_45) (VFloat float_m75)) =
  fst (get_forecast sample_format (fun _ => Success (VList []))
         (VFloat float_45) (VFloat float_m75)).
Proof.
  apply (retries_do_not_show sample_format (codes [500; 500; 200])
           (VFloat float_45) (VFloat float_m75) 2 (VList [])).
  - lia.
  - intros j Hj. assert (j = 0 \/ j = 1) as [-> | ->] by lia; reflexivity.
  - reflexivity.
Defined.

Lemma forecast_of_first_location_witness :
  fst (get_forecast_with sample_format
         (fun _ => (Ret SAMPLE_API_RESPONSE, []))
         (VFloat float_45) (VFloat float_m75)) =
    Ret (join SEPARATOR (map (rendered_block sample_format)
                           (retained SAMPLE_DAILY 5)))
  /\ (List.length (retained SAMPLE_DAILY 5) <= 5)%nat.
Proof.
  apply (forecast_of_first_location sample_format (VFloat float_45)
           (VFloat float_m75) []
           [("displayName", VStr "Test City");
            ("dailyFcst", VDict [("daily", VList (map VDict SAMPLE_DAILY))])]
           [("daily", VList (map VDict SAMPLE_DAILY))] [] SAMPLE_DAILY).
  - reflexivity.
  - reflexivity.
  - reflexivity.
  - discriminate.
Defined.

Lemma malformed_location_reported_witness :
  fst (get_forecast_with sample_format (fun _ => (Ret (VList [VNone]), []))
         (VFloat float_45) (VFloat float_m75)) =
    Ret "Error processing forecast data: 'NoneType' object has no attribute 'get'"
  /\ fst (get_forecast_with sample_format
            (fun _ => (Ret (VList [VDict [("dailyFcst", VNone)]]), []))
            (VFloat float_45) (VFloat float_m75)) =
    Ret "Error processing forecast data: 'NoneType' object has no attribute 'get'".
Proof.
  pose proof (malformed_location_reported sample_format (VFloat float_45)
                (VFloat float_m75) [] eq_refl) as (H1 & H2).
  split.
  - apply (H1 VNone []). reflexivity.
  - apply (H2 [("dailyFcst", VNone)] [] VNone); reflexivity.
Defined.

Lemma malformed_daily_reported_witness :
  fst (get_forecast_with sample_format
         (fun _ => (Ret (VList [VDict [("dailyFcst",
                                        VDict [("daily", VInt 7)])]]), []))
         (VFloat float_45) (VFloat float_m75)) =
  Ret "Error processing forecast data: 'int' object is not iterable".
Proof.
  apply (malformed_daily_reported sample_format (VFloat float_45)
           (VFloat float_m75) []
           [("dailyFcst", VDict [("daily", VInt 7)])]
           [("daily", VInt 7)] [] (VInt 7)); reflexivity.
Defined.

Lemma nan_and_infinity_witness :
  (1 <= requests (snd (get_forecast sample_format (codes [200%Z])
                         (VFloat S754_nan) (VInt 0))))%nat
  /\ get_forecast sample_format (codes [200])
       (VFloat (S754_infinity false)) (VInt 0) =
     (Ret "Error: Latitude must be between -90 and 90 degrees", []).
Proof.
  pose proof (nan_and_infinity sample_format (codes [200]) (VInt 0) (VInt 0)
                false eq_refl eq_refl) as (H1 & _ & H3).
  split; [apply H1; reflexivity | exact H3].
Defined.
